(** * il2cppdumper-wrapper: dialog selector and run controller

    A shallow embedding of [src/il2cppdumper-wrapper.py].

    The program is GUI glue around two kinds of external processes, so the
    embedding threads one explicit program state through every operation:
    the widgets the code reads and writes, the file tree, the ordered queue
    of callbacks handed to [self.after], the threads started and the
    operating-system calls made.  Python exceptions are results of the
    monad, and [try]/[except]/[finally] are combinators on it. *)

From Stdlib Require Import ZArith Ascii String DecimalString.
From stdpp Require Import base option list strings gmap.

Local Open Scope string_scope.
Local Open Scope list_scope.
Local Open Scope Z_scope.

(** ** Python strings

    A [string] stands for a Python [str] whose characters lie below code
    point 256; each [ascii] is one such character. *)
Module PyStr.

(** Truth value of a [str]: the empty string is false. *)
Definition truthy (s : string) : bool :=
  match s with
  | EmptyString => false
  | String _ _ => true
  end.

(** Truth value of an [Optional[str]]: [None] and [""] are false. *)
Definition truthy_opt (o : option string) : bool :=
  match o with
  | None => false
  | Some s => truthy s
  end.

(** [str.isspace] for one character: the white-space code points
    below 256 are 9..13, 28..32, 133 and 160. *)
Definition isspace (c : ascii) : bool :=
  let n := N_of_ascii c in
  ((9 <=? n) && (n <=? 13) || (28 <=? n) && (n <=? 32)
   || (n =? 133) || (n =? 160))%N.

Fixpoint lstrip (s : string) : string :=
  match s with
  | EmptyString => EmptyString
  | String c rest => if isspace c then lstrip rest else s
  end.

Fixpoint rstrip (s : string) : string :=
  match s with
  | EmptyString => EmptyString
  | String c rest =>
      match rstrip rest with
      | EmptyString => if isspace c then EmptyString else String c EmptyString
      | kept => String c kept
      end
  end.

(** [s.strip()] *)
Definition strip (s : string) : string := rstrip (lstrip s).

(** [sep.join(parts)] *)
Fixpoint join (sep : string) (parts : list string) : string :=
  match parts with
  | [] => ""
  | [p] => p
  | p :: rest => p +:+ sep +:+ join sep rest
  end.

(** [s.split(sep)] for a one-character separator. *)
Fixpoint split (sep : ascii) (s : string) : list string :=
  match s with
  | EmptyString => [EmptyString]
  | String c rest =>
      if Ascii.eqb c sep then EmptyString :: split sep rest
      else match split sep rest with
           | [] => [String c EmptyString]
           | hd :: tl => String c hd :: tl
           end
  end.

(** [s.endswith(c)] for one character. *)
Fixpoint endswith (c : ascii) (s : string) : bool :=
  match s with
  | EmptyString => false
  | String d EmptyString => Ascii.eqb d c
  | String _ rest => endswith c rest
  end.

(** The line feed, ["\n"]. *)
Definition newline : string := String "010" EmptyString.

(** [str(n)] for an [int]. *)
Definition of_int (n : Z) : string := NilZero.string_of_int (Z.to_int n).

End PyStr.

(** ** Exceptions

    Only three classes are told apart by the handlers of the program:
    [FileNotFoundError], its base [OSError], and their base [Exception].
    An [exn] records the most specific of the three that the raised object
    is an instance of, and [str(e)].  What is raised from outside the
    program text ([KeyboardInterrupt] and the like, which are not
    [Exception]s) is not modelled. *)
Inductive exn_class := FileNotFoundError | OSError | Exception.

Record exn := mkExn { exn_cls : exn_class; exn_str : string }.

(** [isinstance(e, cls)] along FileNotFoundError <: OSError <: Exception. *)
Definition isinstance (e : exn) (cls : exn_class) : bool :=
  match cls, exn_cls e with
  | Exception, _ => true
  | OSError, (FileNotFoundError | OSError) => true
  | FileNotFoundError, FileNotFoundError => true
  | _, _ => false
  end.

(** ** The file tree seen through [os.path] and [os.makedirs]

    A path is resolved to its list of segments from the root of the modelled
    tree; relative paths are taken from that root, empty and [.] segments
    are dropped.  The tree maps the segment list of every existing entry to
    its kind.  Paths through [..] and symbolic links are outside the model:
    [..] is read as an ordinary name.  What is proved of the program takes
    the outcome of [os.path.exists] and [os.path.isdir] as it is given and
    holds for any tree. *)
Inductive node := File | Dir.

Module Fs.

Definition keep_segment (seg : string) : bool :=
  PyStr.truthy seg && negb (String.eqb seg ".").

Definition resolve (p : string) : list string :=
  List.filter keep_segment (PyStr.split "/" p).

(** The root always exists and is a directory. *)
Definition node_at (fs : gmap (list string) node) (segs : list string)
  : option node :=
  match segs with
  | [] => Some Dir
  | _ => fs !! segs
  end.

(** The path asks for a directory: it ends with a separator or with a
    [.] segment. *)
Definition asks_directory (p : string) : bool :=
  match last (PyStr.split "/" p) with
  | Some seg => negb (keep_segment seg)
  | None => false
  end.

(** [os.path.exists(p)]: a regular file does not exist under a name that
    asks for a directory. *)
Definition exists_ (p : string) (fs : gmap (list string) node) : bool :=
  PyStr.truthy p &&
  match node_at fs (resolve p) with
  | Some Dir => true
  | Some File => negb (asks_directory p)
  | None => false
  end.

(** [os.path.isdir(p)] *)
Definition isdir (p : string) (fs : gmap (list string) node) : bool :=
  PyStr.truthy p &&
  match node_at fs (resolve p) with
  | Some Dir => true
  | _ => false
  end.

(** The ancestors of a resolved path, the path itself included:
    its non-empty prefixes. *)
Definition ancestors (segs : list string) : list (list string) :=
  List.map (fun k => take (S k) segs) (seq 0 (length segs)).

End Fs.

(** ** Widgets, processes and the program state *)

(** The [state] option of a widget. *)
Inductive WidgetState := normal | disabled.

(** The tags configured on the output log (lines 130-134). *)
Inductive Tag := red | green | blue | info | warning.

(** The text widget [self.output_log]: its [state] option and the chunks
    inserted so far, oldest first, each with the tag it was inserted
    under. *)
Record Textbox := mkTextbox {
  tb_state : WidgetState;
  tb_chunks : list (string * option Tag)
}.

(** What [subprocess.run(..., capture_output=True, text=True, check=False)]
    returns. *)
Record CompletedProcess := mkCompletedProcess {
  returncode : Z;
  stdout : string;
  stderr : string
}.

(** Calls that reach the operating system, in the order they are made. *)
Inductive Call :=
| CallMakedirs (path : string)
| CallRun (command : list string).

(** The callbacks handed to [self.after(0, ...)].  The two ways the source
    asks for the run button to be configured are kept apart: line 204
    passes the dictionary [{"state": v}] as a positional argument, line 233
    calls [configure(state=v)]. *)
Inductive Callback :=
| cb_log_message (message : string) (tag : Tag)
| cb_configure_dict (state : WidgetState)
| cb_configure_kw (state : WidgetState).

(** Targets of the threads the program starts. *)
Inductive Target := target_run_dumper_async.

(** What the program does not decide: the platform it runs on.
    [run_process] is the behaviour of an external command on a file tree
    (its result, or the exception [subprocess.run] raises, and the tree it
    leaves); [mkdir_error] is the error, if any, with which the system
    refuses to create one missing directory; [configure_positional] is what
    the widget toolkit makes of an option dictionary passed positionally to
    [configure], given the current state of the widget (the state the
    widget has afterwards). *)
Record Platform := mkPlatform {
  os_name : string;
  which : string -> option string;
  run_process : list string -> gmap (list string) node ->
                (exn + CompletedProcess) * gmap (list string) node;
  mkdir_error : list string -> gmap (list string) node -> option exn;
  configure_positional : WidgetState -> WidgetState -> WidgetState
}.

Record State := mkState {
  exec_entry : string;
  meta_entry : string;
  output_entry : string;
  run_button : WidgetState;
  output_log : Textbox;
  fs : gmap (list string) node;
  calls : list Call;
  after_queue : list Callback;
  threads : list Target;
  console : list string
}.

Definition set_run_button (v : WidgetState) (st : State) : State :=
  mkState (exec_entry st) (meta_entry st) (output_entry st) v (output_log st)
          (fs st) (calls st) (after_queue st) (threads st) (console st).

Definition set_output_log (tb : Textbox) (st : State) : State :=
  mkState (exec_entry st) (meta_entry st) (output_entry st) (run_button st) tb
          (fs st) (calls st) (after_queue st) (threads st) (console st).

Definition set_fs (t : gmap (list string) node) (st : State) : State :=
  mkState (exec_entry st) (meta_entry st) (output_entry st) (run_button st)
          (output_log st) t (calls st) (after_queue st) (threads st)
          (console st).

Definition set_calls (cs : list Call) (st : State) : State :=
  mkState (exec_entry st) (meta_entry st) (output_entry st) (run_button st)
          (output_log st) (fs st) cs (after_queue st) (threads st)
          (console st).

Definition set_after_queue (q : list Callback) (st : State) : State :=
  mkState (exec_entry st) (meta_entry st) (output_entry st) (run_button st)
          (output_log st) (fs st) (calls st) q (threads st) (console st).

Definition set_threads (ts : list Target) (st : State) : State :=
  mkState (exec_entry st) (meta_entry st) (output_entry st) (run_button st)
          (output_log st) (fs st) (calls st) (after_queue st) ts (console st).

Definition set_console (out : list string) (st : State) : State :=
  mkState (exec_entry st) (meta_entry st) (output_entry st) (run_button st)
          (output_log st) (fs st) (calls st) (after_queue st) (threads st) out.

(** ** The monad of the program: state, and exceptions that keep it *)

Inductive Result (A : Type) :=
| Ok (a : A)
| Raise (e : exn).
Arguments Ok {A} a.
Arguments Raise {A} e.

Definition M (A : Type) : Type := State -> Result A * State.

Definition ret {A} (a : A) : M A := fun st => (Ok a, st).

Definition bind {A B} (c : M A) (k : A -> M B) : M B :=
  fun st =>
    match c st with
    | (Ok a, st') => k a st'
    | (Raise e, st') => (Raise e, st')
    end.

Definition raise {A} (e : exn) : M A := fun st => (Raise e, st).

Declare Scope py_scope.
Delimit Scope py_scope with py.
Notation "x <- c ;; k" := (bind c (fun x => k))
  (at level 100, c at next level, k at level 200, right associativity)
  : py_scope.
Notation "c ;; k" := (bind c (fun _ => k))
  (at level 100, k at level 200, right associativity) : py_scope.
Local Open Scope py_scope.

(** The first clause whose class the exception is an instance of. *)
Fixpoint find_handler {A} (e : exn) (clauses : list (exn_class * (exn -> M A)))
  : option (M A) :=
  match clauses with
  | [] => None
  | (cls, h) :: rest =>
      if isinstance e cls then Some (h e) else find_handler e rest
  end.

(** [try: body / except cls1 as e: ... / except cls2 as e: ...] *)
Definition try_except {A} (body : M A)
    (clauses : list (exn_class * (exn -> M A))) : M A :=
  fun st =>
    match body st with
    | (Ok a, st') => (Ok a, st')
    | (Raise e, st') =>
        match find_handler e clauses with
        | Some h => h st'
        | None => (Raise e, st')
        end
    end.

(** [try: body / finally: final] *)
Definition try_finally {A} (body : M A) (final : M unit) : M A :=
  fun st =>
    match body st with
    | (r, st') =>
        match final st' with
        | (Ok _, st'') => (r, st'')
        | (Raise e, st'') => (Raise e, st'')
        end
    end.

(** [if cond: body] as a statement. *)
Definition when (cond : bool) (body : M unit) : M unit :=
  if cond then body else ret tt.

(** ** Primitive operations *)

Definition get {A} (field : State -> A) : M A := fun st => (Ok (field st), st).

(** [print(text)] *)
Definition print (text : string) : M unit :=
  fun st => (Ok tt, set_console (console st ++ [text]) st).

(** [self.after(0, callback, *args)]: the callback joins the queue the
    event loop of the main thread serves in order. *)
Definition after (cb : Callback) : M unit :=
  fun st => (Ok tt, set_after_queue (after_queue st ++ [cb]) st).

(** [threading.Thread(target=t).start()] *)
Definition thread_start (t : Target) : M unit :=
  fun st => (Ok tt, set_threads (threads st ++ [t]) st).

Definition textbox_configure (v : WidgetState) (tb : Textbox) : Textbox :=
  mkTextbox v (tb_chunks tb).

(** [insert("end", text, tag)]; a disabled text widget ignores it. *)
Definition textbox_insert_end (text : string) (tag : option Tag)
    (tb : Textbox) : Textbox :=
  match tb_state tb with
  | normal => mkTextbox normal (tb_chunks tb ++ [(text, tag)])
  | disabled => tb
  end.

(** [delete("1.0", END)]; a disabled text widget ignores it. *)
Definition textbox_delete_all (tb : Textbox) : Textbox :=
  match tb_state tb with
  | normal => mkTextbox normal []
  | disabled => tb
  end.

Definition modify_output_log (f : Textbox -> Textbox) : M unit :=
  fun st => (Ok tt, set_output_log (f (output_log st)) st).

(** [self.run_button.configure(state=v)] *)
Definition run_button_configure (v : WidgetState) : M unit :=
  fun st => (Ok tt, set_run_button v st).

(** ** The program on a platform *)
Section Program.

Variable env : Platform.

(** *** Operating-system calls *)

(** [os.path.exists(p)] and [os.path.isdir(p)] on the current tree. *)
Definition os_path_exists (p : string) : M bool :=
  fun st => (Ok (Fs.exists_ p (fs st)), st).

Definition os_path_isdir (p : string) : M bool :=
  fun st => (Ok (Fs.isdir p (fs st)), st).

(** [os.path.join(a, '')] of [posixpath]: [a] gains a trailing separator
    unless it is empty or already ends with one. *)
Definition os_path_join_empty (a : string) : string :=
  if negb (PyStr.truthy a) || PyStr.endswith "/" a then a else a +:+ "/".

(** Creating the chain of directories [todo] below [base], the topmost
    first.  An existing directory is passed through, an existing file
    stops the chain with an [OSError] ([FileExistsError] at the end of the
    chain, [NotADirectoryError] before), a missing directory is created
    unless the system refuses.  Directories created before a failure
    stay.  The text given to the error of a file in the way is indicative
    only (the class is what the program looks at). *)
Fixpoint mkdir_chain (base todo : list string) (t : gmap (list string) node)
  : gmap (list string) node * option exn :=
  match todo with
  | [] => (t, None)
  | seg :: rest =>
      let here := base ++ [seg] in
      match Fs.node_at t here with
      | Some Dir => mkdir_chain here rest t
      | Some File =>
          (t, Some (mkExn OSError
                      ((match rest with
                        | [] => "[Errno 17] File exists: '"
                        | _ => "[Errno 20] Not a directory: '"
                        end) +:+ PyStr.join "/" here +:+ "'")))
      | None =>
          match mkdir_error env here t with
          | Some e => (t, Some e)
          | None => mkdir_chain here rest (<[here := Dir]> t)
          end
      end
  end.

(** [os.makedirs(p, exist_ok=True)] *)
Definition os_makedirs (p : string) : M unit :=
  fun st =>
    let st1 := set_calls (calls st ++ [CallMakedirs p]) st in
    if PyStr.truthy p then
      match mkdir_chain [] (Fs.resolve p) (fs st1) with
      | (t, None) => (Ok tt, set_fs t st1)
      | (t, Some e) => (Raise e, set_fs t st1)
      end
    else
      (Raise (mkExn FileNotFoundError
                "[Errno 2] No such file or directory: ''"), st1).

(** [subprocess.run(command, capture_output=True, text=True, check=False)] *)
Definition subprocess_run (command : list string) : M CompletedProcess :=
  fun st =>
    let st1 := set_calls (calls st ++ [CallRun command]) st in
    match run_process env command (fs st1) with
    | (inr process, t) => (Ok process, set_fs t st1)
    | (inl e, t) => (Raise e, set_fs t st1)
    end.

(** *** Dialog selector (lines 12-74) *)

(** Lines 27-48: which helper is used, and its command line. *)
Definition dialog_command (prompt file_type : string)
    (initial_dir : option string) : bool * list string :=
  if PyStr.truthy_opt (which env "zenity") then
    (true,
     ["zenity"; "--file-selection"; "--title"; prompt]
       ++ (if String.eqb file_type "directory" then ["--directory"] else [])
       ++ (if PyStr.truthy_opt initial_dir
           then ["--filename"; os_path_join_empty (default "" initial_dir)]
           else []))
  else if PyStr.truthy_opt (which env "kdialog") then
    (true,
     ["kdialog"; "--title"; prompt]
       ++ [if String.eqb file_type "directory"
           then "--getexistingdirectory" else "--getopenfilename"]
       ++ (if PyStr.truthy_opt initial_dir
           then [default "" initial_dir] else []))
  else (false, []).

(** Lines 57-67: the helper is run and its result mapped. *)
Definition dialog_run (command : list string) : M (option string * Z) :=
  result <- subprocess_run command ;;
  let selected_path := PyStr.strip (stdout result) in
  if (returncode result =? 0) && PyStr.truthy selected_path then
    ret (Some selected_path, 0)
  else if returncode result =? 1 then
    ret (None, 1)
  else
    ret (None, -1).

Definition get_native_dialog_selection (prompt file_type : string)
    (initial_dir : option string) : M (option string * Z) :=
  if negb (String.eqb (os_name env) "posix") then
    ret (None, -1)
  else
    let '(tool_found, command) :=
      dialog_command prompt file_type initial_dir in
    if negb tool_found then
      ret (None, -1)
    else
      match command with
      | _ :: _ =>
          try_except (dialog_run command)
            [(Exception, fun e =>
                print ("Error running native dialog command '"
                       +:+ PyStr.join " " command +:+ "': " +:+ exn_str e) ;;
                ret (None, -1))]
      | [] => ret (None, -1)
      end.

(** *** Run controller *)

(** [_log_message] (lines 137-141). *)
Definition _log_message (message : string) (tag : option Tag) : M unit :=
  modify_output_log (textbox_configure normal) ;;
  modify_output_log (textbox_insert_end (message +:+ PyStr.newline) tag) ;;
  modify_output_log (textbox_configure disabled).

(** [all([exec_file, meta_file, output_dir])] *)
Definition all_filled (exec_file meta_file output_dir : string) : bool :=
  forallb PyStr.truthy [exec_file; meta_file; output_dir].

(** The text of line 224.  Its last three characters are kept as the six
    bytes the source file holds for them, one of them lying above code
    point 255; nothing proved depends on them. *)
Definition success_message : string :=
  "Command completed successfully! âœ¨".

(** Lines 211-226: the tool is run and its result reported. *)
Definition run_and_report (command : list string) : M unit :=
  process <- subprocess_run command ;;
  when (PyStr.truthy (stdout process))
    (after (cb_log_message (stdout process) info)) ;;
  when (PyStr.truthy (stderr process))
    (after (cb_log_message ("Error: (stderr): " +:+ stderr process) red)) ;;
  if returncode process =? 0 then
    after (cb_log_message success_message green)
  else
    after (cb_log_message
             ("Command failed with exit code "
              +:+ PyStr.of_int (returncode process)) red).

(** Lines 198-205: [true] when the worker goes on, [false] when it
    has returned from inside the [except] clause. *)
Definition ensure_output_dir (output_dir : string) : M bool :=
  isdir <- os_path_isdir output_dir ;;
  if negb isdir then
    try_except
      (os_makedirs output_dir ;;
       after (cb_log_message
                ("Warning: Output directory doesn't exist, creating output directory: "
                 +:+ output_dir) warning) ;;
       ret true)
      [(OSError, fun e =>
          after (cb_log_message
                   ("Error: creating output directory '" +:+ output_dir
                    +:+ "': " +:+ exn_str e) red) ;;
          after (cb_configure_dict normal) ;;
          ret false)]
  else ret true.

(** Lines 210-233: the [try] statement around the tool. *)
Definition invoke_tool (command : list string) : M unit :=
  try_finally
    (try_except (run_and_report command)
       [(FileNotFoundError, fun _ =>
           after (cb_log_message
                    "Error: 'il2cppdumper' command not found. Please ensure it's installed and in your system's PATH."
                    red));
        (Exception, fun e =>
           after (cb_log_message
                    ("An unexpected error occurred: " +:+ exn_str e) red))])
    (after (cb_configure_kw normal)).

(** The body of the background thread (lines 182-233). *)
Definition run_dumper_async : M unit :=
  exec_file <- get exec_entry ;;
  meta_file <- get meta_entry ;;
  output_dir <- get output_entry ;;
  if negb (all_filled exec_file meta_file output_dir) then
    after (cb_log_message "Internal Error: Fields were not validated." red)
  else
    go_on <- ensure_output_dir output_dir ;;
    if negb go_on then ret tt
    else
      let command := ["il2cppdumper"; exec_file; meta_file; output_dir] in
      after (cb_log_message
               ("Preparing to run: `" +:+ PyStr.join " " command +:+ "`")
               blue) ;;
      invoke_tool command.

(** The handler of the run button (lines 235-265). *)
Definition run_dumper : M unit :=
  exec_file <- get exec_entry ;;
  meta_file <- get meta_entry ;;
  output_dir <- get output_entry ;;
  if negb (all_filled exec_file meta_file output_dir) then
    _log_message "Error: All fields must be filled!" (Some red)
  else
    exec_exists <- os_path_exists exec_file ;;
    if negb exec_exists then
      _log_message ("Error: Executable file not found at '" +:+ exec_file
                    +:+ "'") (Some red)
    else
      meta_exists <- os_path_exists meta_file ;;
      if negb meta_exists then
        _log_message ("Error: Metadata file not found at '" +:+ meta_file
                      +:+ "'") (Some red)
      else
        run_button_configure disabled ;;
        modify_output_log (textbox_configure normal) ;;
        modify_output_log textbox_delete_all ;;
        modify_output_log (textbox_configure disabled) ;;
        thread_start target_run_dumper_async.

(** *** The event loop of the main thread *)

Definition run_callback (cb : Callback) : M unit :=
  match cb with
  | cb_log_message message tag => _log_message message (Some tag)
  | cb_configure_dict v =>
      fun st =>
        (Ok tt, set_run_button (configure_positional env v (run_button st)) st)
  | cb_configure_kw v => run_button_configure v
  end.

Fixpoint run_callbacks (cbs : list Callback) : M unit :=
  match cbs with
  | [] => ret tt
  | cb :: rest => run_callback cb ;; run_callbacks rest
  end.

(** The event loop serves every queued callback, in the order queued. *)
Definition process_after_queue : M unit :=
  fun st => run_callbacks (after_queue st) (set_after_queue [] st).

End Program.

(** ** Sample platforms and states, used to run the program *)
Module Sample.

(** A helper that prints the chosen path, a dump tool that rejects its
    input, and no other command. *)
Definition processes (command : list string) (t : gmap (list string) node)
  : (exn + CompletedProcess) * gmap (list string) node :=
  match command with
  | "zenity" :: _ =>
      (inr (mkCompletedProcess
              0 ("/srv/game/GameAssembly.dll" +:+ PyStr.newline) ""), t)
  | "il2cppdumper" :: _ => (inr (mkCompletedProcess 2 "" "bad header"), t)
  | _ => (inl (mkExn FileNotFoundError
                 "[Errno 2] No such file or directory"), t)
  end.

Definition only_zenity (name : string) : option string :=
  if String.eqb name "zenity" then Some "/usr/bin/zenity" else None.

(** Nothing may be created below [/proc]. *)
Definition refuse_proc (segs : list string) (t : gmap (list string) node)
  : option exn :=
  match segs with
  | "proc" :: _ =>
      Some (mkExn OSError "[Errno 13] Permission denied: '/proc/dump'")
  | _ => None
  end.

(** The toolkit the program imports: the [configure] of a customtkinter
    button is [configure(require_redraw=False, **kwargs)], so a dictionary
    passed positionally is taken for the redraw flag and changes no
    option. *)
Definition dict_is_flag (v current : WidgetState) : WidgetState := current.

Definition linux : Platform :=
  mkPlatform "posix" only_zenity processes refuse_proc dict_is_flag.

Definition windows : Platform :=
  mkPlatform "nt" only_zenity processes refuse_proc dict_is_flag.

Definition tree : gmap (list string) node :=
  <[ ["srv"; "game"; "global-metadata.dat"] := File ]>
    (<[ ["srv"; "game"; "GameAssembly.dll"] := File ]>
       (<[ ["srv"; "game"] := Dir ]> (<[ ["srv"] := Dir ]> ∅))).

Definition fresh_log : Textbox := mkTextbox normal [].

(** The three fields filled in, the output directory still missing. *)
Definition filled : State :=
  mkState "/srv/game/GameAssembly.dll" "/srv/game/global-metadata.dat"
          "/srv/out/dump" normal fresh_log tree [] [] [] [].


(** One field left empty, with an earlier line in the log. *)
Definition metadata_missing : State :=
  mkState "/srv/game/GameAssembly.dll" "" "/srv/out/dump" normal
          (mkTextbox disabled [("Selected executable: /srv/game/GameAssembly.dll"
                                +:+ PyStr.newline, Some info)])
          tree [] [] [] [].

(** A run under way whose output directory cannot be created. *)
Definition unwritable_output : State :=
  mkState "/srv/game/GameAssembly.dll" "/srv/game/global-metadata.dat"
          "/proc/dump" disabled (mkTextbox disabled []) tree [] []
          [target_run_dumper_async] [].

End Sample.

(** ** Notions used in the statements *)

(** The state an operation leaves. *)
Definition exec {A} (c : M A) (st : State) : State := snd (c st).

(** The chunks that serving a queue of callbacks adds to the log. *)
Fixpoint log_chunks (q : list Callback) : list (string * option Tag) :=
  match q with
  | [] => []
  | cb_log_message message tag :: rest =>
      (message +:+ PyStr.newline, Some tag) :: log_chunks rest
  | _ :: rest => log_chunks rest
  end.

(** The command line of the dump tool (line 207). *)
Definition dump_command (st : State) : list string :=
  ["il2cppdumper"; exec_entry st; meta_entry st; output_entry st].

(** The entry announcing the tool (line 208). *)
Definition announcement (st : State) : Callback :=
  cb_log_message
    ("Preparing to run: `" +:+ PyStr.join " " (dump_command st) +:+ "`") blue.

(** The warning that the output directory was created (line 201). *)
Definition creation_warning (st : State) : Callback :=
  cb_log_message
    ("Warning: Output directory doesn't exist, creating output directory: "
     +:+ output_entry st) warning.

(** The entries the specification expects for a completed invocation:
    the output as one [info] entry when there is any, the error output as
    one [red] entry marked as such when there is any, then one status
    entry. *)
Definition expected_entries (process : CompletedProcess) : list Callback :=
  (if PyStr.truthy (stdout process)
   then [cb_log_message (stdout process) info] else [])
  ++ (if PyStr.truthy (stderr process)
      then [cb_log_message ("Error: (stderr): " +:+ stderr process) red]
      else [])
  ++ [if returncode process =? 0
      then cb_log_message success_message green
      else cb_log_message
             ("Command failed with exit code "
              +:+ PyStr.of_int (returncode process)) red].

(** The entries for an invocation that raised instead. *)
Definition failure_entries (e : exn) : list Callback :=
  if isinstance e FileNotFoundError then
    [cb_log_message
       "Error: 'il2cppdumper' command not found. Please ensure it's installed and in your system's PATH."
       red]
  else [cb_log_message ("An unexpected error occurred: " +:+ exn_str e) red].

Definition outcome_entries (outcome : exn + CompletedProcess) : list Callback :=
  match outcome with
  | inr process => expected_entries process
  | inl e => failure_entries e
  end.

(** The state of the run button once the event loop has served a
    callback. *)
Definition button_after (env : Platform) (button : WidgetState)
    (cb : Callback) : WidgetState :=
  match cb with
  | cb_log_message _ _ => button
  | cb_configure_dict v => configure_positional env v button
  | cb_configure_kw v => v
  end.

(** The entry reporting that the output directory could not be created
    (line 203). *)
Definition creation_error (st : State) (e : exn) : Callback :=
  cb_log_message
    ("Error: creating output directory '" +:+ output_entry st +:+ "': "
     +:+ exn_str e) red.

(** How many requests to configure the run button a queue holds. *)
Fixpoint configure_requests (q : list Callback) : nat :=
  match q with
  | [] => O
  | cb_log_message _ _ :: rest => configure_requests rest
  | _ :: rest => S (configure_requests rest)
  end.

(** The user edits the executable field. *)
Definition set_exec_entry (text : string) (st : State) : State :=
  mkState text (meta_entry st) (output_entry st) (run_button st)
          (output_log st) (fs st) (calls st) (after_queue st) (threads st)
          (console st).

(** ** The browse buttons (lines 144-179) *)

Definition set_meta_entry (text : string) (st : State) : State :=
  mkState (exec_entry st) text (output_entry st) (run_button st)
          (output_log st) (fs st) (calls st) (after_queue st) (threads st)
          (console st).

Definition set_output_entry (text : string) (st : State) : State :=
  mkState (exec_entry st) (meta_entry st) text (run_button st)
          (output_log st) (fs st) (calls st) (after_queue st) (threads st)
          (console st).

(** [entry.delete(0, END)] and [entry.insert(0, text)] on an entry given
    by its reader and writer. *)
Definition entry_delete_all (write : string -> State -> State) : M unit :=
  fun st => (Ok tt, write "" st).

Definition entry_insert_front (read : State -> string)
    (write : string -> State -> State) (text : string) : M unit :=
  fun st => (Ok tt, write (text +:+ read st) st).

(** [str(x)] for an [Optional[str]].  The selector never gives status 0
    without a path (lines 60-61), so the browse buttons never render
    [None]. *)
Definition str_of_optional (x : option string) : string :=
  match x with
  | Some s => s
  | None => "None"
  end.

Definition no_file_dialog : string :=
  "Error: Could not open a native file dialog. Please ensure 'zenity' or 'kdialog' is installed and working.".

Definition no_directory_dialog : string :=
  "Error: Could not open a native directory dialog. Please ensure 'zenity' or 'kdialog' is installed and working.".

Section Browse.

Variable env : Platform.

(** Lines 144-154. *)
Definition browse_executable : M unit :=
  r <- get_native_dialog_selection env "Select Executable File" "file" None ;;
  let '(file_path, status) := r in
  if status =? 0 then
    entry_delete_all set_exec_entry ;;
    entry_insert_front exec_entry set_exec_entry (str_of_optional file_path) ;;
    _log_message ("Selected executable: " +:+ str_of_optional file_path)
                 (Some info)
  else if status =? -1 then
    _log_message no_file_dialog (Some red)
  else ret tt.

(** Lines 157-166. *)
Definition browse_metadata : M unit :=
  r <- get_native_dialog_selection env "Select Global Metadata File" "file"
         None ;;
  let '(file_path, status) := r in
  if status =? 0 then
    entry_delete_all set_meta_entry ;;
    entry_insert_front meta_entry set_meta_entry (str_of_optional file_path) ;;
    _log_message ("Selected metadata: " +:+ str_of_optional file_path)
                 (Some info)
  else if status =? -1 then
    _log_message no_file_dialog (Some red)
  else ret tt.

(** Lines 169-179. *)
Definition browse_output_dir : M unit :=
  r <- get_native_dialog_selection env "Select Output Directory" "directory"
         None ;;
  let '(dir_path, status) := r in
  if status =? 0 then
    entry_delete_all set_output_entry ;;
    entry_insert_front output_entry set_output_entry
      (str_of_optional dir_path) ;;
    _log_message ("Selected output directory: " +:+ str_of_optional dir_path)
                 (Some info)
  else if status =? -1 then
    _log_message no_directory_dialog (Some red)
  else ret tt.

End Browse.

(** ** Notions used in the further statements *)

(** The three browse buttons, to speak of them together. *)
Inductive Button := executable_button | metadata_button | output_dir_button.

Definition browse (env : Platform) (b : Button) : M unit :=
  match b with
  | executable_button => browse_executable env
  | metadata_button => browse_metadata env
  | output_dir_button => browse_output_dir env
  end.

(** The field a browse button fills, and the other two. *)
Definition own_field (b : Button) (st : State) : string :=
  match b with
  | executable_button => exec_entry st
  | metadata_button => meta_entry st
  | output_dir_button => output_entry st
  end.

Definition other_fields (b : Button) (st : State) : string * string :=
  match b with
  | executable_button => (meta_entry st, output_entry st)
  | metadata_button => (exec_entry st, output_entry st)
  | output_dir_button => (exec_entry st, meta_entry st)
  end.

Definition set_own_field (b : Button) (text : string) (st : State) : State :=
  match b with
  | executable_button => set_exec_entry text st
  | metadata_button => set_meta_entry text st
  | output_dir_button => set_output_entry text st
  end.

Definition browse_prompt (b : Button) : string :=
  match b with
  | executable_button => "Select Executable File"
  | metadata_button => "Select Global Metadata File"
  | output_dir_button => "Select Output Directory"
  end.

Definition browse_mode (b : Button) : string :=
  match b with
  | output_dir_button => "directory"
  | _ => "file"
  end.

(** The command line of the helper a browse button runs. *)
Definition browse_command (env : Platform) (b : Button) : list string :=
  snd (dialog_command env (browse_prompt b) (browse_mode b) None).

Definition selected_label (b : Button) : string :=
  match b with
  | executable_button => "Selected executable: "
  | metadata_button => "Selected metadata: "
  | output_dir_button => "Selected output directory: "
  end.

Definition no_dialog_message (b : Button) : string :=
  match b with
  | output_dir_button => no_directory_dialog
  | _ => no_file_dialog
  end.

(** Whether a helper is used at all: a POSIX system with zenity or kdialog
    on the search path. *)
Definition helper_available (env : Platform) : bool :=
  String.eqb (os_name env) "posix"
  && (PyStr.truthy_opt (which env "zenity")
      || PyStr.truthy_opt (which env "kdialog")).

(** The first and the last character of a string are white space. *)
Definition starts_with_space (s : string) : bool :=
  match s with
  | EmptyString => false
  | String c _ => PyStr.isspace c
  end.

Fixpoint ends_with_space (s : string) : bool :=
  match s with
  | EmptyString => false
  | String c EmptyString => PyStr.isspace c
  | String _ rest => ends_with_space rest
  end.

(** The helper of a browse button did not give a path and was not
    cancelled: it raised, left with a status other than 0 and 1, or left
    with status 0 and blank output. *)
Definition helper_failed (env : Platform) (b : Button) (st : State) : Prop :=
  match fst (run_process env (browse_command env b) (fs st)) with
  | inl _ => True
  | inr process =>
      returncode process <> 1 /\
      (returncode process <> 0 \/ PyStr.strip (stdout process) = "")
  end.

(** The widgets and the bookkeeping of the main thread: what a helper
    process or the worker must not touch directly. *)
Definition same_widgets (a b : State) : Prop :=
  exec_entry a = exec_entry b /\ meta_entry a = meta_entry b /\
  output_entry a = output_entry b /\ run_button a = run_button b /\
  output_log a = output_log b.

(** Further platforms and states to run the program on. *)
Module MoreSamples.

(** Every helper is on the search path, none can be executed. *)
Definition broken_helpers : Platform :=
  mkPlatform "posix" (fun name => Some ("/usr/bin/" +:+ name))
    (fun command t =>
       (inl (mkExn OSError "[Errno 8] Exec format error: 'zenity'"), t))
    Sample.refuse_proc Sample.dict_is_flag.

(** Only kdialog is installed, and the user cancels its dialog. *)
Definition cancelling : Platform :=
  mkPlatform "posix"
    (fun name =>
       if String.eqb name "kdialog" then Some "/usr/bin/kdialog" else None)
    (fun command t => (inr (mkCompletedProcess 1 "" ""), t))
    Sample.refuse_proc Sample.dict_is_flag.

(** The helper leaves with a status that is neither 0 nor 1. *)
Definition failing_helper : Platform :=
  mkPlatform "posix" Sample.only_zenity
    (fun command t =>
       (inr (mkCompletedProcess 255 "" "cannot open display"), t))
    Sample.refuse_proc Sample.dict_is_flag.

(** The dump tool is not installed. *)
Definition tool_missing : Platform :=
  mkPlatform "posix" Sample.only_zenity
    (fun command t =>
       (inl (mkExn FileNotFoundError
               "[Errno 2] No such file or directory: 'il2cppdumper'"), t))
    Sample.refuse_proc Sample.dict_is_flag.

(** The dump tool is there but may not be executed. *)
Definition tool_forbidden : Platform :=
  mkPlatform "posix" Sample.only_zenity
    (fun command t =>
       (inl (mkExn OSError "[Errno 13] Permission denied: 'il2cppdumper'"),
        t))
    Sample.refuse_proc Sample.dict_is_flag.

(** [os.makedirs] rejects the path before it reaches the system. *)
Definition mkdir_value_error : Platform :=
  mkPlatform "posix" Sample.only_zenity Sample.processes
    (fun segs t => Some (mkExn Exception "embedded null byte"))
    Sample.dict_is_flag.

(** The three fields filled in, the output directory already there, and
    an earlier line in the log. *)
Definition output_exists : State :=
  mkState "/srv/game/GameAssembly.dll" "/srv/game/global-metadata.dat"
          "/srv/game" normal
          (mkTextbox disabled
             [("Selected output directory: /srv/game" +:+ PyStr.newline,
               Some info)])
          Sample.tree [] [] [] [].

(** The executable path is mistyped. *)
Definition mistyped_executable : State :=
  mkState "/srv/game/GameAssembly.dl" "/srv/game/missing.dat" "/srv/out"
          normal Sample.fresh_log Sample.tree [] [] [] [].

(** The metadata path is mistyped. *)
Definition mistyped_metadata : State :=
  mkState "/srv/game/GameAssembly.dll" "/srv/game/missing.dat" "/srv/out"
          normal Sample.fresh_log Sample.tree [] [] [] [].

End MoreSamples.

(** ** Basic facts *)

Lemma truthy_true (s : string) : PyStr.truthy s = true <-> s <> "".
Proof. destruct s; simpl; split; intros H; congruence. Qed.

Lemma truthy_false (s : string) : PyStr.truthy s = false <-> s = "".
Proof. destruct s; simpl; split; intros H; congruence. Qed.

Lemma all_filled_false (a b c : string) :
  all_filled a b c = false <-> a = "" \/ b = "" \/ c = "".
Proof.
  unfold all_filled; simpl.
  destruct a, b, c; simpl; split; intros H; auto;
    try discriminate; destruct H as [H | [H | H]]; discriminate.
Qed.

Lemma all_filled_true (a b c : string) :
  all_filled a b c = true <-> a <> "" /\ b <> "" /\ c <> "".
Proof.
  unfold all_filled; simpl.
  destruct a, b, c; simpl; split; intros H; try discriminate;
    try (destruct H as (Ha & Hb & Hc); congruence);
    repeat split; discriminate.
Qed.

(** A helper that was found has a command line to run. *)
Lemma dialog_command_found env prompt file_type initial_dir :
  fst (dialog_command env prompt file_type initial_dir) = true ->
  snd (dialog_command env prompt file_type initial_dir) <> [].
Proof.
  unfold dialog_command.
  destruct (PyStr.truthy_opt (which env "zenity")); simpl; [discriminate |].
  destruct (PyStr.truthy_opt (which env "kdialog")); simpl; discriminate.
Qed.

Lemma dialog_command_not_found env prompt file_type initial_dir :
  PyStr.truthy_opt (which env "zenity") = false ->
  PyStr.truthy_opt (which env "kdialog") = false ->
  dialog_command env prompt file_type initial_dir = (false, []).
Proof. intros Hz Hk. unfold dialog_command. rewrite Hz, Hk. reflexivity. Qed.

(** What the selector returns once a helper is found on a POSIX system. *)
Lemma selector_runs_helper env prompt file_type initial_dir st :
  os_name env = "posix" ->
  fst (dialog_command env prompt file_type initial_dir) = true ->
  get_native_dialog_selection env prompt file_type initial_dir st =
  try_except
    (dialog_run env (snd (dialog_command env prompt file_type initial_dir)))
    [(Exception, fun e =>
        print ("Error running native dialog command '"
               +:+ PyStr.join " "
                     (snd (dialog_command env prompt file_type initial_dir))
               +:+ "': " +:+ exn_str e) ;;
        ret (None, -1))] st.
Proof.
  intros Hposix Hfound.
  pose proof (dialog_command_found _ _ _ _ Hfound) as Hcmd.
  unfold get_native_dialog_selection. rewrite Hposix. simpl.
  destruct (dialog_command env prompt file_type initial_dir)
    as [found command].
  simpl in *. subst found. simpl.
  destruct command; [congruence | reflexivity].
Qed.

(** The mapping of lines 57-71 on each outcome of the helper. *)
Lemma helper_result_mapping env command st :
  fst (try_except (dialog_run env command)
         [(Exception, fun e =>
             print ("Error running native dialog command '"
                    +:+ PyStr.join " " command +:+ "': " +:+ exn_str e) ;;
             ret (None, -1))] st) =
  match fst (run_process env command (fs st)) with
  | inr process =>
      let out := PyStr.strip (stdout process) in
      if (returncode process =? 0) && PyStr.truthy out then Ok (Some out, 0)
      else if returncode process =? 1 then Ok (None, 1)
      else Ok (None, -1)
  | inl _ => Ok (None, -1)
  end.
Proof.
  unfold try_except, dialog_run, bind, subprocess_run. simpl.
  destruct (run_process env command (fs st)) as [[e | process] t]; simpl.
  - destruct e as [[] msg]; reflexivity.
  - destruct ((returncode process =? 0) && PyStr.truthy _); [reflexivity |].
    destruct (returncode process =? 1); reflexivity.
Qed.

(** ** The dialog selector *)

(** C2.  Once a helper is found on a POSIX system, the selector returns
    what the helper's outcome maps to: exit status 0 with non-empty
    stripped output gives [(stripped output, 0)] (Selected); exit status 1
    gives [(None, 1)] (Cancelled); any other exit status, exit status 0
    with empty stripped output, and any exception raised while running
    the helper give [(None, -1)] (Unavailable). *)
Theorem selector_maps_helper_outcome env prompt file_type initial_dir st :
  os_name env = "posix" ->
  fst (dialog_command env prompt file_type initial_dir) = true ->
  let command := snd (dialog_command env prompt file_type initial_dir) in
  let result :=
    fst (get_native_dialog_selection env prompt file_type initial_dir st) in
  match fst (run_process env command (fs st)) with
  | inr process =>
      let out := PyStr.strip (stdout process) in
      (returncode process = 0 -> out <> "" -> result = Ok (Some out, 0)) /\
      (returncode process = 1 -> result = Ok (None, 1)) /\
      (returncode process <> 0 -> returncode process <> 1 ->
       result = Ok (None, -1)) /\
      (returncode process = 0 -> out = "" -> result = Ok (None, -1))
  | inl _ => result = Ok (None, -1)
  end.
Proof.
  intros Hposix Hfound command result. subst result.
  rewrite selector_runs_helper by assumption.
  fold command. rewrite helper_result_mapping.
  destruct (fst (run_process env command (fs st))) as [e | process];
    [reflexivity |].
  cbv zeta. repeat split.
  - intros Hrc Hout. apply truthy_true in Hout.
    rewrite Hrc, Hout. reflexivity.
  - intros Hrc. rewrite Hrc. reflexivity.
  - intros H0 H1.
    apply Z.eqb_neq in H0. apply Z.eqb_neq in H1.
    rewrite H0, H1. reflexivity.
  - intros Hrc Hout. rewrite Hrc, Hout. reflexivity.
Qed.

(** On the sample platform the helper prints a path and exits with 0:
    the stripped path is selected. *)
Lemma selector_maps_helper_outcome_witness :
  os_name Sample.linux = "posix" /\
  fst (dialog_command Sample.linux "Select Executable File" "file" None)
    = true /\
  fst (get_native_dialog_selection Sample.linux "Select Executable File"
         "file" None Sample.filled)
    = Ok (Some "/srv/game/GameAssembly.dll", 0).
Proof.
  split; [reflexivity |]. split; [reflexivity |].
  pose proof (selector_maps_helper_outcome Sample.linux
                "Select Executable File" "file" None Sample.filled
                eq_refl eq_refl) as H.
  simpl in H. destruct H as (H & _). apply H; [reflexivity | discriminate].
Defined.

(** C7.  Off POSIX, or when neither zenity nor kdialog is on the search
    path, the selector returns [(None, -1)] (Unavailable); it returns
    normally, having run no process and printed nothing. *)
Theorem selector_unavailable_without_helper env prompt file_type initial_dir st :
  os_name env <> "posix" \/
  (PyStr.truthy_opt (which env "zenity") = false /\
   PyStr.truthy_opt (which env "kdialog") = false) ->
  get_native_dialog_selection env prompt file_type initial_dir st
    = (Ok (None, -1), st).
Proof.
  intros H. unfold get_native_dialog_selection.
  destruct (String.eqb_spec (os_name env) "posix") as [Hposix | Hother];
    simpl; [| reflexivity].
  destruct H as [H | [Hz Hk]]; [contradiction |].
  rewrite dialog_command_not_found by assumption. reflexivity.
Qed.

Lemma selector_unavailable_without_helper_witness :
  (os_name Sample.windows <> "posix" \/
   (PyStr.truthy_opt (Sample.only_zenity "zenity") = false /\
    PyStr.truthy_opt (Sample.only_zenity "kdialog") = false)) /\
  get_native_dialog_selection
    Sample.windows "Select Output Directory" "directory" None Sample.filled
    = (Ok (None, -1), Sample.filled).
Proof.
  assert (Hnt : "nt" <> "posix") by discriminate.
  split; [left; exact Hnt |].
  apply selector_unavailable_without_helper. left. exact Hnt.
Defined.

(** C8.  The selector always returns, and what it returns is [(p, 0)] with
    [p] non-empty, [(None, 1)] or [(None, -1)]; so the path is present
    exactly when the status is 0, and the status is 0, 1 or -1. *)
Theorem selector_result_shape env prompt file_type initial_dir st :
  exists r,
    fst (get_native_dialog_selection env prompt file_type initial_dir st)
      = Ok r /\
    ((exists p, p <> "" /\ r = (Some p, 0)) \/ r = (None, 1) \/ r = (None, -1)) /\
    (is_Some (fst r) <-> snd r = 0) /\
    (snd r = 0 \/ snd r = 1 \/ snd r = -1).
Proof.
  assert (Hshape : forall r : option string * Z,
             (exists p, p <> "" /\ r = (Some p, 0)) \/ r = (None, 1)
             \/ r = (None, -1) ->
             ((exists p, p <> "" /\ r = (Some p, 0)) \/ r = (None, 1)
              \/ r = (None, -1)) /\
             (is_Some (fst r) <-> snd r = 0) /\
             (snd r = 0 \/ snd r = 1 \/ snd r = -1)).
  { intros r Hr. split; [exact Hr |].
    destruct Hr as [(p & _ & ->) | [-> | ->]]; simpl.
    - split; [split; eauto | auto].
    - split; [| auto]. split; [intros [? ?] |]; discriminate.
    - split; [| auto]. split; [intros [? ?] |]; discriminate. }
  destruct (String.eqb_spec (os_name env) "posix") as [Hposix | Hother].
  - destruct (fst (dialog_command env prompt file_type initial_dir)) eqn:Hfound.
    + rewrite selector_runs_helper by assumption.
      rewrite helper_result_mapping.
      destruct (fst (run_process env _ (fs st))) as [e | process].
      * eexists; split; [reflexivity |]. apply Hshape. auto.
      * cbv zeta.
        destruct (returncode process =? 0); simpl.
        -- destruct (PyStr.truthy (PyStr.strip (stdout process))) eqn:Hout.
           ++ eexists; split; [reflexivity |]. apply Hshape. left.
              eexists; split; [| reflexivity]. by apply truthy_true.
           ++ destruct (returncode process =? 1);
                (eexists; split; [reflexivity |]); apply Hshape; auto.
        -- destruct (returncode process =? 1);
             (eexists; split; [reflexivity |]); apply Hshape; auto.
    + unfold get_native_dialog_selection.
      rewrite Hposix. simpl.
      destruct (dialog_command env prompt file_type initial_dir)
        as [found command].
      simpl in Hfound. subst found. simpl.
      eexists; split; [reflexivity |]. apply Hshape. auto.
  - rewrite selector_unavailable_without_helper by auto. simpl.
    eexists; split; [reflexivity |]. apply Hshape. auto.
Qed.

(** ** The handler of the run button *)

(** One call of [_log_message] adds one chunk and leaves the log
    disabled, whatever state the widget was in. *)
Lemma log_message_spec message tag st :
  _log_message message tag st =
  (Ok tt,
   set_output_log
     (mkTextbox disabled
        (tb_chunks (output_log st) ++ [(message +:+ PyStr.newline, tag)]))
     st).
Proof. reflexivity. Qed.

(** The three ways [run_dumper] gives up, and the one way it goes on. *)
Lemma run_dumper_unfilled st :
  all_filled (exec_entry st) (meta_entry st) (output_entry st) = false ->
  run_dumper st = _log_message "Error: All fields must be filled!" (Some red) st.
Proof. intros H. unfold run_dumper, bind, get. rewrite H. reflexivity. Qed.

Lemma run_dumper_no_executable st :
  all_filled (exec_entry st) (meta_entry st) (output_entry st) = true ->
  Fs.exists_ (exec_entry st) (fs st) = false ->
  run_dumper st =
  _log_message ("Error: Executable file not found at '" +:+ exec_entry st
                +:+ "'") (Some red) st.
Proof.
  intros Hall Hexec. unfold run_dumper, bind, get, os_path_exists.
  rewrite Hall. simpl. rewrite Hexec. reflexivity.
Qed.

Lemma run_dumper_no_metadata st :
  all_filled (exec_entry st) (meta_entry st) (output_entry st) = true ->
  Fs.exists_ (exec_entry st) (fs st) = true ->
  Fs.exists_ (meta_entry st) (fs st) = false ->
  run_dumper st =
  _log_message ("Error: Metadata file not found at '" +:+ meta_entry st
                +:+ "'") (Some red) st.
Proof.
  intros Hall Hexec Hmeta. unfold run_dumper, bind, get, os_path_exists.
  rewrite Hall. simpl. rewrite Hexec. simpl. rewrite Hmeta. reflexivity.
Qed.

Lemma run_dumper_passes st :
  all_filled (exec_entry st) (meta_entry st) (output_entry st) = true ->
  Fs.exists_ (exec_entry st) (fs st) = true ->
  Fs.exists_ (meta_entry st) (fs st) = true ->
  run_dumper st =
  thread_start target_run_dumper_async
    (set_output_log (mkTextbox disabled []) (set_run_button disabled st)).
Proof.
  intros Hall Hexec Hmeta. unfold run_dumper, bind, get, os_path_exists.
  rewrite Hall. simpl. rewrite Hexec. simpl. rewrite Hmeta. reflexivity.
Qed.

(** C3.  When one of the three fields is empty, [run_dumper] starts no
    thread and adds exactly one entry to the log, the red "all fields must
    be filled" line; the button, the callback queue, the file tree and the
    list of system calls are as they were. *)
Theorem run_dumper_rejects_empty_field st :
  exec_entry st = "" \/ meta_entry st = "" \/ output_entry st = "" ->
  exists st',
    run_dumper st = (Ok tt, st') /\
    threads st' = threads st /\
    tb_chunks (output_log st') =
      tb_chunks (output_log st)
        ++ [("Error: All fields must be filled!" +:+ PyStr.newline, Some red)] /\
    run_button st' = run_button st /\
    after_queue st' = after_queue st /\
    calls st' = calls st /\
    fs st' = fs st.
Proof.
  intros H. apply all_filled_false in H.
  rewrite run_dumper_unfilled by exact H. rewrite log_message_spec.
  eexists. split; [reflexivity |]. simpl. repeat split; reflexivity.
Qed.

Lemma run_dumper_rejects_empty_field_witness :
  (exec_entry Sample.metadata_missing = "" \/
   meta_entry Sample.metadata_missing = "" \/
   output_entry Sample.metadata_missing = "") /\
  threads (exec run_dumper Sample.metadata_missing) = [] /\
  tb_chunks (output_log (exec run_dumper Sample.metadata_missing)) =
    [("Selected executable: /srv/game/GameAssembly.dll" +:+ PyStr.newline,
      Some info);
     ("Error: All fields must be filled!" +:+ PyStr.newline, Some red)].
Proof.
  assert (Hempty : exec_entry Sample.metadata_missing = "" \/
                   meta_entry Sample.metadata_missing = "" \/
                   output_entry Sample.metadata_missing = "")
    by (right; left; reflexivity).
  split; [exact Hempty |].
  destruct (run_dumper_rejects_empty_field Sample.metadata_missing Hempty)
    as (st' & Hrun & Hthreads & Hlog & _).
  unfold exec. rewrite Hrun. simpl. split; [exact Hthreads | exact Hlog].
Defined.



(** An existing directory passes the existence test. *)
Lemma isdir_exists (p : string) (t : gmap (list string) node) :
  Fs.isdir p t = true -> Fs.exists_ p t = true.
Proof.
  unfold Fs.isdir, Fs.exists_. destruct (PyStr.truthy p); [| discriminate].
  destruct (Fs.node_at t (Fs.resolve p)) as [[] |]; simpl; congruence.
Qed.

(** C10.  The pre-checks of [run_dumper] test existence and not the kind
    of entry: with the three fields filled, whenever each of the
    executable and metadata paths names an existing directory or passes
    [os.path.exists], so in particular when one or both of them name a
    directory rather than a regular file, validation passes, the button is
    disabled and the worker thread is started. *)
Theorem run_dumper_accepts_directories st :
  exec_entry st <> "" -> meta_entry st <> "" -> output_entry st <> "" ->
  Fs.isdir (exec_entry st) (fs st) = true \/
  Fs.exists_ (exec_entry st) (fs st) = true ->
  Fs.isdir (meta_entry st) (fs st) = true \/
  Fs.exists_ (meta_entry st) (fs st) = true ->
  fst (run_dumper st) = Ok tt /\
  threads (exec run_dumper st) = threads st ++ [target_run_dumper_async] /\
  run_button (exec run_dumper st) = disabled.
Proof.
  intros He Hm Ho Hexec Hmeta.
  assert (Hall : all_filled (exec_entry st) (meta_entry st) (output_entry st)
                 = true) by (apply all_filled_true; auto).
  assert (Hexec' : Fs.exists_ (exec_entry st) (fs st) = true)
    by (destruct Hexec as [H | H]; [apply isdir_exists |]; exact H).
  assert (Hmeta' : Fs.exists_ (meta_entry st) (fs st) = true)
    by (destruct Hmeta as [H | H]; [apply isdir_exists |]; exact H).
  unfold exec. rewrite run_dumper_passes by assumption.
  simpl. repeat split; reflexivity.
Qed.

(** The executable field names the game directory, the metadata field
    the same directory with a separator at the end: the worker is
    started. *)
Lemma run_dumper_accepts_directories_witness :
  Fs.isdir "/srv/game" Sample.tree = true /\
  Fs.isdir "/srv/game/" Sample.tree = true /\
  threads (exec run_dumper
             (mkState "/srv/game" "/srv/game/" "/srv/out/dump" normal
                Sample.fresh_log Sample.tree [] [] [] []))
    = [target_run_dumper_async].
Proof.
  split; [reflexivity |]. split; [reflexivity |].
  apply (run_dumper_accepts_directories
           (mkState "/srv/game" "/srv/game/" "/srv/out/dump" normal
              Sample.fresh_log Sample.tree [] [] [] []));
    solve [discriminate | left; reflexivity].
Defined.

(** ** Creating the output directory *)

Lemma node_at_snoc (t : gmap (list string) node) base seg :
  Fs.node_at t (base ++ [seg]) = t !! (base ++ [seg]).
Proof. destruct base; reflexivity. Qed.

(** Whatever [os.makedirs] does, every entry that was there stays. *)
Lemma mkdir_chain_keeps env todo : forall base t t' r,
  mkdir_chain env base todo t = (t', r) ->
  forall (key : list string) kind, t !! key = Some kind -> t' !! key = Some kind.
Proof.
  induction todo as [| seg rest IH]; intros base t t' r Hrun key kind Hkey.
  - simpl in Hrun. congruence.
  - simpl in Hrun. rewrite node_at_snoc in Hrun.
    destruct (t !! (base ++ [seg])) as [[] |] eqn:Hhere.
    + congruence.
    + eapply IH; eauto.
    + destruct (mkdir_error env (base ++ [seg]) t); [congruence |].
      eapply IH; [exact Hrun |].
      rewrite lookup_insert_ne; [exact Hkey | congruence].
Qed.

(** When [os.makedirs] succeeds, every directory of the chain exists. *)
Lemma mkdir_chain_creates env todo : forall base t t',
  mkdir_chain env base todo t = (t', None) ->
  forall k, (k < length todo)%nat ->
            t' !! (base ++ take (S k) todo) = Some Dir.
Proof.
  induction todo as [| seg rest IH]; intros base t t' Hrun k Hk.
  - simpl in Hk. lia.
  - simpl in Hrun. rewrite node_at_snoc in Hrun.
    assert (Hstep : forall t1,
               mkdir_chain env (base ++ [seg]) rest t1 = (t', None) ->
               t1 !! (base ++ [seg]) = Some Dir ->
               t' !! (base ++ take (S k) (seg :: rest)) = Some Dir).
    { intros t1 Hrest Hhere. destruct k as [| k].
      - simpl. rewrite take_0. eapply mkdir_chain_keeps; eauto.
      - change (take (S (S k)) (seg :: rest)) with (seg :: take (S k) rest).
        replace (base ++ seg :: take (S k) rest)
          with ((base ++ [seg]) ++ take (S k) rest)
          by (rewrite <- app_assoc; reflexivity).
        eapply IH; [exact Hrest |]. simpl in Hk. lia. }
    destruct (t !! (base ++ [seg])) as [[] |] eqn:Hhere.
    + discriminate.
    + eapply Hstep; eauto.
    + destruct (mkdir_error env (base ++ [seg]) t); [discriminate |].
      eapply Hstep; [exact Hrun |]. apply lookup_insert_eq.
Qed.

Lemma ancestors_created env p t t' :
  mkdir_chain env [] (Fs.resolve p) t = (t', None) ->
  Forall (fun a => t' !! a = Some Dir) (Fs.ancestors (Fs.resolve p)).
Proof.
  intros Hrun. unfold Fs.ancestors. apply Forall_forall.
  intros a Ha. apply list_elem_of_In, in_map_iff in Ha.
  destruct Ha as (k & <- & Hk).
  apply in_seq in Hk.
  apply (mkdir_chain_creates env _ [] t t' Hrun k). lia.
Qed.

Lemma isdir_created env p t t' :
  PyStr.truthy p = true ->
  mkdir_chain env [] (Fs.resolve p) t = (t', None) ->
  Fs.isdir p t' = true.
Proof.
  intros Hp Hrun. unfold Fs.isdir. rewrite Hp. simpl.
  destruct (Fs.resolve p) as [| seg rest] eqn:Hsegs; [reflexivity |].
  pose proof (mkdir_chain_creates env _ [] t t' Hrun (length rest)) as H.
  simpl in H. rewrite firstn_all in H. simpl. rewrite H; [reflexivity | lia].
Qed.

(** ** The event loop *)

(** Two states with the same fields are the same state. *)
Lemma state_eq (a b : State) :
  exec_entry a = exec_entry b -> meta_entry a = meta_entry b ->
  output_entry a = output_entry b -> run_button a = run_button b ->
  output_log a = output_log b -> fs a = fs b -> calls a = calls b ->
  after_queue a = after_queue b -> threads a = threads b ->
  console a = console b -> a = b.
Proof. destruct a, b; simpl; intros; subst; reflexivity. Qed.

Ltac same_state :=
  apply state_eq; simpl; rewrite <- ?app_assoc; try reflexivity.

(** Serving a queue never raises; the log gains the chunks of the queued
    messages in order, the button goes through the queued requests in
    order, and nothing else changes. *)
Lemma run_callbacks_spec env q : forall st,
  run_callbacks env q st =
  (Ok tt,
   set_run_button (fold_left (button_after env) q (run_button st))
     (match log_chunks q with
      | [] => st
      | added =>
          set_output_log
            (mkTextbox disabled (tb_chunks (output_log st) ++ added)) st
      end)).
Proof.
  induction q as [| cb rest IH]; intros st.
  - simpl. unfold ret. f_equal. destruct st; reflexivity.
  - destruct cb as [message tag | v | v]; simpl; unfold bind.
    + rewrite log_message_spec, IH. f_equal. simpl.
      destruct (log_chunks rest); same_state.
    + simpl. rewrite IH. f_equal. simpl.
      destruct (log_chunks rest); same_state.
    + unfold run_button_configure. rewrite IH. f_equal. simpl.
      destruct (log_chunks rest); same_state.
Qed.

Lemma process_after_queue_button env st :
  run_button (exec (process_after_queue env) st) =
  fold_left (button_after env) (after_queue st) (run_button st).
Proof.
  unfold exec, process_after_queue. rewrite run_callbacks_spec. reflexivity.
Qed.

Lemma process_after_queue_log env st :
  tb_chunks (output_log (exec (process_after_queue env) st)) =
  tb_chunks (output_log st) ++ log_chunks (after_queue st).
Proof.
  unfold exec, process_after_queue. rewrite run_callbacks_spec. simpl.
  destruct (log_chunks (after_queue st)); simpl;
    [rewrite app_nil_r |]; reflexivity.
Qed.

Lemma log_chunks_app q1 q2 :
  log_chunks (q1 ++ q2) = log_chunks q1 ++ log_chunks q2.
Proof.
  induction q1 as [| [message tag | v | v] rest IH]; simpl;
    rewrite ?IH; reflexivity.
Qed.

Lemma configure_requests_app q1 q2 :
  configure_requests (q1 ++ q2)
  = (configure_requests q1 + configure_requests q2)%nat.
Proof.
  induction q1 as [| [message tag | v | v] rest IH]; simpl;
    rewrite ?IH; reflexivity.
Qed.

(** ** The background worker, branch by branch *)

(** Lines 193-195: the early return. *)
Lemma worker_unvalidated env st :
  all_filled (exec_entry st) (meta_entry st) (output_entry st) = false ->
  run_dumper_async env st =
  (Ok tt,
   set_after_queue
     (after_queue st
        ++ [cb_log_message "Internal Error: Fields were not validated." red])
     st).
Proof.
  intros Hall. unfold run_dumper_async, bind, get. rewrite Hall. reflexivity.
Qed.

(** Lines 198-205. *)
Lemma ensure_output_dir_spec env st :
  ensure_output_dir env (output_entry st) st =
  if Fs.isdir (output_entry st) (fs st) then (Ok true, st)
  else
    match os_makedirs env (output_entry st) st with
    | (Ok _, st1) =>
        (Ok true,
         set_after_queue (after_queue st1 ++ [creation_warning st]) st1)
    | (Raise e, st1) =>
        if isinstance e OSError then
          (Ok false,
           set_after_queue
             (after_queue st1 ++ [creation_error st e; cb_configure_dict normal])
             st1)
        else (Raise e, st1)
    end.
Proof.
  unfold ensure_output_dir, bind, os_path_isdir.
  destruct (Fs.isdir (output_entry st) (fs st)); cbn -[isinstance];
    [reflexivity |].
  unfold try_except, bind.
  destruct (os_makedirs env (output_entry st) st) as [[[] | e] st1];
    cbn -[isinstance].
  - reflexivity.
  - destruct (isinstance e OSError); simpl; [| reflexivity].
    unfold after, creation_error. simpl. f_equal. same_state.
Qed.

(** What [os.makedirs] leaves: the call is recorded, the tree is the one
    the chain of creations produced. *)
Lemma os_makedirs_spec env p st :
  PyStr.truthy p = true ->
  os_makedirs env p st =
  (match snd (mkdir_chain env [] (Fs.resolve p) (fs st)) with
   | None => Ok tt
   | Some e => Raise e
   end,
   set_fs (fst (mkdir_chain env [] (Fs.resolve p) (fs st)))
     (set_calls (calls st ++ [CallMakedirs p]) st)).
Proof.
  intros Hp. unfold os_makedirs. rewrite Hp. simpl.
  destruct (mkdir_chain env [] (Fs.resolve p) (fs st)) as [t [e |]];
    reflexivity.
Qed.

(** Lines 210-233: whatever the tool does, the entries of its outcome are
    queued, then the request to enable the button; the worker returns
    normally. *)
Lemma invoke_tool_spec env command st :
  invoke_tool env command st =
  (Ok tt,
   set_after_queue
     (after_queue st
        ++ outcome_entries (fst (run_process env command (fs st)))
        ++ [cb_configure_kw normal])
     (set_fs (snd (run_process env command (fs st)))
        (set_calls (calls st ++ [CallRun command]) st))).
Proof.
  unfold invoke_tool, try_finally, try_except, run_and_report, bind,
    subprocess_run.
  simpl.
  destruct (run_process env command (fs st)) as [[e | process] t]; simpl.
  - destruct e as [[] msg]; simpl; f_equal; same_state.
  - unfold when, outcome_entries, expected_entries.
    destruct (PyStr.truthy (stdout process)),
             (PyStr.truthy (stderr process)),
             (returncode process =? 0);
      simpl; f_equal; same_state.
Qed.

(** The worker with the three fields filled. *)
Lemma worker_validated env st :
  all_filled (exec_entry st) (meta_entry st) (output_entry st) = true ->
  run_dumper_async env st =
  match ensure_output_dir env (output_entry st) st with
  | (Ok true, st1) =>
      invoke_tool env (dump_command st) (exec (after (announcement st)) st1)
  | (Ok false, st1) => (Ok tt, st1)
  | (Raise e, st1) => (Raise e, st1)
  end.
Proof.
  intros Hall. unfold run_dumper_async, bind, get. rewrite Hall. simpl.
  destruct (ensure_output_dir env (output_entry st) st) as [[[] | e] st1];
    reflexivity.
Qed.

(** ** The background worker: what the claims say *)

(** With the fields filled, the worker that gets past the output
    directory queues the announcement, the entries of the tool's outcome
    and one request to enable the button, in this order. *)
Lemma worker_tool_phase env st st1 :
  all_filled (exec_entry st) (meta_entry st) (output_entry st) = true ->
  ensure_output_dir env (output_entry st) st = (Ok true, st1) ->
  run_dumper_async env st =
  (Ok tt,
   set_after_queue
     (after_queue st1
        ++ [announcement st]
        ++ outcome_entries (fst (run_process env (dump_command st) (fs st1)))
        ++ [cb_configure_kw normal])
     (set_fs (snd (run_process env (dump_command st) (fs st1)))
        (set_calls (calls st1 ++ [CallRun (dump_command st)]) st1))).
Proof.
  intros Hall Hdir. rewrite worker_validated by exact Hall.
  rewrite Hdir, invoke_tool_spec. simpl. f_equal. same_state.
Qed.

(** Lines 202-205: the state the worker leaves when [os.makedirs] raises
    an [OSError]. *)
Lemma failed_creation_state env st e :
  all_filled (exec_entry st) (meta_entry st) (output_entry st) = true ->
  Fs.isdir (output_entry st) (fs st) = false ->
  fst (os_makedirs env (output_entry st) st) = Raise e ->
  isinstance e OSError = true ->
  run_dumper_async env st =
  (Ok tt,
   set_after_queue
     (after_queue st ++ [creation_error st e; cb_configure_dict normal])
     (set_fs (fst (mkdir_chain env [] (Fs.resolve (output_entry st)) (fs st)))
        (set_calls (calls st ++ [CallMakedirs (output_entry st)]) st))).
Proof.
  intros Hall Hdir Hfail Hos.
  assert (Hout : PyStr.truthy (output_entry st) = true).
  { apply all_filled_true in Hall. apply truthy_true. tauto. }
  rewrite worker_validated by exact Hall.
  rewrite ensure_output_dir_spec, Hdir.
  destruct (os_makedirs env (output_entry st) st) as [r st1] eqn:Hmk.
  simpl in Hfail. subst r. rewrite Hos.
  rewrite os_makedirs_spec in Hmk by exact Hout.
  injection Hmk as _ <-. reflexivity.
Qed.

(** X19.  When the output directory is missing and [os.makedirs] raises an
    [OSError], the worker returns normally having queued exactly two
    callbacks, the red entry that carries the text of the error and then
    the call of [run_button.configure] on the dictionary with state
    [normal], and the only system call it made is the [makedirs] call: the
    tool is not run.  Serving the queue puts the error in the log and
    leaves the button in the state the toolkit gives it for a dictionary
    passed positionally. *)
Theorem failed_creation_queues_error_and_request env st e :
  all_filled (exec_entry st) (meta_entry st) (output_entry st) = true ->
  Fs.isdir (output_entry st) (fs st) = false ->
  fst (os_makedirs env (output_entry st) st) = Raise e ->
  isinstance e OSError = true ->
  let st' := exec (run_dumper_async env) st in
  fst (run_dumper_async env st) = Ok tt /\
  after_queue st' =
    after_queue st ++ [creation_error st e; cb_configure_dict normal] /\
  calls st' = calls st ++ [CallMakedirs (output_entry st)] /\
  tb_chunks (output_log (exec (process_after_queue env) st')) =
    tb_chunks (output_log st) ++ log_chunks (after_queue st)
      ++ log_chunks [creation_error st e] /\
  run_button (exec (process_after_queue env) st') =
    configure_positional env normal
      (fold_left (button_after env) (after_queue st) (run_button st)).
Proof.
  intros Hall Hdir Hfail Hos st'.
  pose proof (failed_creation_state env st e Hall Hdir Hfail Hos) as Hrun.
  assert (Hst' : st' = snd (run_dumper_async env st)) by reflexivity.
  rewrite Hrun in Hst'. cbn [snd] in Hst'. clearbody st'. subst st'.
  rewrite Hrun.
  split; [reflexivity |]. split; [reflexivity |]. split; [reflexivity |].
  split.
  - rewrite process_after_queue_log. simpl.
    rewrite log_chunks_app. reflexivity.
  - rewrite process_after_queue_button. simpl.
    rewrite fold_left_app. reflexivity.
Qed.

Lemma failed_creation_queues_error_and_request_witness :
  after_queue (exec (run_dumper_async Sample.linux) Sample.unwritable_output) =
    [cb_log_message
       "Error: creating output directory '/proc/dump': [Errno 13] Permission denied: '/proc/dump'"
       red;
     cb_configure_dict normal] /\
  calls (exec (run_dumper_async Sample.linux) Sample.unwritable_output) =
    [CallMakedirs "/proc/dump"].
Proof.
  pose proof (failed_creation_queues_error_and_request Sample.linux
                Sample.unwritable_output
                (mkExn OSError "[Errno 13] Permission denied: '/proc/dump'")
                eq_refl eq_refl eq_refl eq_refl)
    as (_ & Hqueue & Hcalls & _).
  split; [exact Hqueue | exact Hcalls].
Defined.

(** On a toolkit that changes no option for a dictionary passed
    positionally, as customtkinter does, the request of line 204 has no
    effect: after a failed creation the button is as the run found it. *)
Lemma positional_request_has_no_effect env st e :
  all_filled (exec_entry st) (meta_entry st) (output_entry st) = true ->
  Fs.isdir (output_entry st) (fs st) = false ->
  fst (os_makedirs env (output_entry st) st) = Raise e ->
  isinstance e OSError = true ->
  (forall v current, configure_positional env v current = current) ->
  after_queue st = [] ->
  run_button
    (exec (process_after_queue env) (exec (run_dumper_async env) st))
    = run_button st.
Proof.
  intros Hall Hdir Hfail Hos Htoolkit Hidle.
  rewrite process_after_queue_button. unfold exec.
  rewrite (failed_creation_state env st e Hall Hdir Hfail Hos). simpl.
  rewrite Hidle. simpl. apply Htoolkit.
Qed.

(** C4 fails on line 204.  A run is under way, the button disabled, and
    the output directory cannot be created: [os.makedirs] raises an
    [OSError].  The worker returns normally having queued the red entry
    with the text of the error and the call of [configure] on the
    dictionary, and it has not run the tool; but the dictionary is passed
    positionally, the toolkit takes it for the redraw flag, and once the
    event loop has served the queue the button is still disabled. *)
Theorem failed_creation_leaves_button_disabled :
  let worked :=
    exec (run_dumper_async Sample.linux) Sample.unwritable_output in
  let served := exec (process_after_queue Sample.linux) worked in
  run_button Sample.unwritable_output = disabled /\
  Fs.isdir "/proc/dump" (fs Sample.unwritable_output) = false /\
  fst (os_makedirs Sample.linux "/proc/dump" Sample.unwritable_output) =
    Raise (mkExn OSError "[Errno 13] Permission denied: '/proc/dump'") /\
  fst (run_dumper_async Sample.linux Sample.unwritable_output) = Ok tt /\
  after_queue worked =
    [cb_log_message
       "Error: creating output directory '/proc/dump': [Errno 13] Permission denied: '/proc/dump'"
       red;
     cb_configure_dict normal] /\
  calls worked = [CallMakedirs "/proc/dump"] /\
  after_queue served = [] /\
  tb_chunks (output_log served) =
    [("Error: creating output directory '/proc/dump': [Errno 13] Permission denied: '/proc/dump'"
      +:+ PyStr.newline, Some red)] /\
  run_button served = disabled.
Proof. repeat split. Qed.

(** C5.  In a worker run that finds no directory at the output path:
    when the fields are filled and [os.makedirs] succeeds, the directory
    and every one of its ancestors exist in the tree the tool is run on,
    the [makedirs] call comes before the tool's, and the warning naming
    the directory is queued right before the entry announcing the tool;
    in every other case the tool is not run at all. *)
Theorem worker_creates_output_dir_first env st :
  Fs.isdir (output_entry st) (fs st) = false ->
  let st' := exec (run_dumper_async env) st in
  let created := mkdir_chain env [] (Fs.resolve (output_entry st)) (fs st) in
  if all_filled (exec_entry st) (meta_entry st) (output_entry st) then
    match snd created with
    | None =>
        Forall (fun a => fst created !! a = Some Dir)
               (Fs.ancestors (Fs.resolve (output_entry st))) /\
        Fs.isdir (output_entry st) (fst created) = true /\
        calls st' =
          calls st ++ [CallMakedirs (output_entry st);
                       CallRun (dump_command st)] /\
        fs st' = snd (run_process env (dump_command st) (fst created)) /\
        exists rest,
          after_queue st' =
            after_queue st ++ creation_warning st :: announcement st :: rest
    | Some _ => calls st' = calls st ++ [CallMakedirs (output_entry st)]
    end
  else calls st' = calls st.
Proof.
  intros Hdir st' created.
  destruct (all_filled (exec_entry st) (meta_entry st) (output_entry st))
    eqn:Hall.
  - assert (Hout : PyStr.truthy (output_entry st) = true).
    { apply all_filled_true in Hall. apply truthy_true. tauto. }
    pose proof (ensure_output_dir_spec env st) as Hensure.
    rewrite Hdir, os_makedirs_spec in Hensure by exact Hout.
    fold created in Hensure.
    destruct created as [t [e |]] eqn:Hcreated; simpl in *.
    + subst st'. unfold exec. rewrite worker_validated by exact Hall.
      rewrite Hensure. destruct (exn_cls e); reflexivity.
    + split; [exact (ancestors_created env _ _ _ Hcreated) |].
      split; [exact (isdir_created env _ _ _ Hout Hcreated) |].
      subst st'. unfold exec.
      rewrite (worker_tool_phase env st _ Hall Hensure). simpl.
      split; [rewrite <- app_assoc; reflexivity |].
      split; [reflexivity |].
      eexists. rewrite <- app_assoc. reflexivity.
  - subst st'. unfold exec. rewrite worker_unvalidated by exact Hall.
    reflexivity.
Qed.

Lemma worker_creates_output_dir_first_witness :
  Fs.isdir (output_entry Sample.filled) (fs Sample.filled) = false /\
  calls (exec (run_dumper_async Sample.linux) Sample.filled) =
    [CallMakedirs "/srv/out/dump";
     CallRun ["il2cppdumper"; "/srv/game/GameAssembly.dll";
              "/srv/game/global-metadata.dat"; "/srv/out/dump"]] /\
  Forall (fun a => fs (exec (run_dumper_async Sample.linux) Sample.filled) !! a
                   = Some Dir)
         [["srv"]; ["srv"; "out"]; ["srv"; "out"; "dump"]].
Proof.
  split; [reflexivity |].
  pose proof (worker_creates_output_dir_first Sample.linux Sample.filled
                eq_refl) as H.
  cbv zeta in H.
  assert (Hall : all_filled (exec_entry Sample.filled)
                   (meta_entry Sample.filled) (output_entry Sample.filled)
                 = true) by reflexivity.
  assert (Hok : snd (mkdir_chain Sample.linux []
                       (Fs.resolve (output_entry Sample.filled))
                       (fs Sample.filled)) = None) by reflexivity.
  rewrite Hall, Hok in H.
  destruct H as (Hdirs & _ & Hcalls & Hfs & _).
  split; [exact Hcalls |].
  rewrite Hfs. exact Hdirs.
Defined.

(** C6.  When the worker gets to the tool and the tool completes, what is
    queued after the announcement is: the output as one [info] entry if
    it is not empty, the error output as one [red] entry prefixed
    "Error: (stderr): " if it is not empty, then exactly one status entry,
    the green success line for exit status 0 and otherwise the red line
    naming the exit status; the request to enable the button closes the
    run.  Serving the queue puts these entries in the log in this order. *)
Theorem completed_invocation_entries env st st1 process t :
  all_filled (exec_entry st) (meta_entry st) (output_entry st) = true ->
  ensure_output_dir env (output_entry st) st = (Ok true, st1) ->
  run_process env (dump_command st) (fs st1) = (inr process, t) ->
  let st' := exec (run_dumper_async env) st in
  fst (run_dumper_async env st) = Ok tt /\
  after_queue st' =
    after_queue st1 ++ [announcement st] ++ expected_entries process
      ++ [cb_configure_kw normal] /\
  tb_chunks (output_log (exec (process_after_queue env) st')) =
    tb_chunks (output_log st1) ++ log_chunks (after_queue st1)
      ++ log_chunks [announcement st] ++ log_chunks (expected_entries process).
Proof.
  intros Hall Hdir Htool st'. subst st'. unfold exec at 1 3.
  rewrite (worker_tool_phase env st st1 Hall Hdir), Htool. simpl.
  split; [reflexivity |]. split; [reflexivity |].
  rewrite process_after_queue_log. simpl.
  rewrite !log_chunks_app. simpl. rewrite log_chunks_app. simpl.
  rewrite app_nil_r. reflexivity.
Qed.

(** Exit status 2 with "bad header" on the error output: one red entry
    holds "bad header", the next names exit code 2. *)
Lemma completed_invocation_entries_witness :
  after_queue (exec (run_dumper_async Sample.linux) Sample.filled) =
    [creation_warning Sample.filled;
     announcement Sample.filled;
     cb_log_message "Error: (stderr): bad header" red;
     cb_log_message "Command failed with exit code 2" red;
     cb_configure_kw normal].
Proof.
  pose proof (completed_invocation_entries Sample.linux Sample.filled
                (exec (ensure_output_dir Sample.linux "/srv/out/dump")
                   Sample.filled)
                (mkCompletedProcess 2 "" "bad header")
                (fs (exec (ensure_output_dir Sample.linux "/srv/out/dump")
                       Sample.filled))
                eq_refl eq_refl eq_refl) as (_ & Hqueue & _).
  exact Hqueue.
Defined.

Lemma outcome_entries_no_request outcome :
  configure_requests (outcome_entries outcome) = O.
Proof.
  destruct outcome as [e | process]; simpl.
  - unfold failure_entries. destruct (isinstance e FileNotFoundError);
      reflexivity.
  - unfold expected_entries.
    destruct (PyStr.truthy (stdout process)),
             (PyStr.truthy (stderr process)),
             (returncode process =? 0); reflexivity.
Qed.

(** X14.  Past the re-validation, and as long as [os.makedirs] raises nothing
    but [OSError]s, every branch of the worker returns normally having
    queued exactly one request to configure the button, as the last
    callback, and the request asks for [normal]. *)
Lemma validated_worker_requests_button_once env st :
  all_filled (exec_entry st) (meta_entry st) (output_entry st) = true ->
  (forall e, fst (os_makedirs env (output_entry st) st) = Raise e ->
             isinstance e OSError = true) ->
  exists added,
    fst (run_dumper_async env st) = Ok tt /\
    after_queue (exec (run_dumper_async env) st) = after_queue st ++ added /\
    configure_requests added = 1%nat /\
    (last added = Some (cb_configure_kw normal) \/
     last added = Some (cb_configure_dict normal)).
Proof.
  intros Hall Hos.
  assert (Hout : PyStr.truthy (output_entry st) = true).
  { apply all_filled_true in Hall. apply truthy_true. tauto. }
  unfold exec. rewrite worker_validated by exact Hall.
  rewrite ensure_output_dir_spec.
  destruct (Fs.isdir (output_entry st) (fs st)).
  - rewrite invoke_tool_spec. simpl.
    exists ([announcement st]
              ++ outcome_entries
                   (fst (run_process env (dump_command st) (fs st)))
              ++ [cb_configure_kw normal]).
    split; [reflexivity |]. split; [rewrite <- app_assoc; reflexivity |].
    split.
    + rewrite !configure_requests_app, outcome_entries_no_request.
      reflexivity.
    + left. rewrite !app_assoc. apply last_snoc.
  - destruct (os_makedirs env (output_entry st) st) as [[[] | e] st1] eqn:Hmk.
    + rewrite os_makedirs_spec in Hmk by exact Hout.
      injection Hmk as _ <-.
      rewrite invoke_tool_spec. simpl.
      exists ([creation_warning st; announcement st]
                ++ outcome_entries
                     (fst (run_process env (dump_command st)
                             (fst (mkdir_chain env []
                                     (Fs.resolve (output_entry st)) (fs st)))))
                ++ [cb_configure_kw normal]).
      split; [reflexivity |].
      split; [rewrite <- !app_assoc; reflexivity |].
      split.
      * rewrite !configure_requests_app, outcome_entries_no_request.
        reflexivity.
      * left. rewrite !app_assoc. apply last_snoc.
    + rewrite (Hos e eq_refl).
      rewrite os_makedirs_spec in Hmk by exact Hout.
      injection Hmk as _ <-. simpl.
      exists [creation_error st e; cb_configure_dict normal].
      repeat split. right. reflexivity.
Qed.

(** C1 fails on lines 193-195.  A run is started with the three fields
    filled, which disables the button; the executable field is emptied
    before the worker reads it; the worker returns from its re-validation
    having queued the internal-error entry and nothing else; once the event
    loop has served the queue the button is still disabled. *)
Theorem revalidation_exit_leaves_button_disabled :
  let started := exec run_dumper Sample.filled in
  let edited := set_exec_entry "" started in
  let worked := exec (run_dumper_async Sample.linux) edited in
  let served := exec (process_after_queue Sample.linux) worked in
  threads started = [target_run_dumper_async] /\
  run_button started = disabled /\
  fst (run_dumper_async Sample.linux edited) = Ok tt /\
  after_queue worked =
    [cb_log_message "Internal Error: Fields were not validated." red] /\
  configure_requests (after_queue worked) = O /\
  after_queue served = [] /\
  run_button served = disabled.
Proof. repeat split. Qed.

(** The same on every platform and in every state: the re-validation exit
    queues no request for the button, so serving the queue leaves the
    button as the run found it. *)
Lemma revalidation_exit_never_enables env st :
  all_filled (exec_entry st) (meta_entry st) (output_entry st) = false ->
  after_queue st = [] ->
  run_button (exec (process_after_queue env) (exec (run_dumper_async env) st))
    = run_button st.
Proof.
  intros Hall Hqueue. rewrite process_after_queue_button.
  unfold exec. rewrite worker_unvalidated by exact Hall. simpl.
  rewrite Hqueue. reflexivity.
Qed.

(** ** More on the dialog selector *)

Lemma isinstance_exception e : isinstance e Exception = true.
Proof. reflexivity. Qed.

(** The selector in full: result and state on every path. *)
Lemma selector_spec env prompt file_type initial_dir st :
  get_native_dialog_selection env prompt file_type initial_dir st =
  if helper_available env then
    let command := snd (dialog_command env prompt file_type initial_dir) in
    let st1 := set_fs (snd (run_process env command (fs st)))
                 (set_calls (calls st ++ [CallRun command]) st) in
    match fst (run_process env command (fs st)) with
    | inr process =>
        (Ok (let out := PyStr.strip (stdout process) in
             if (returncode process =? 0) && PyStr.truthy out
             then (Some out, 0)
             else if returncode process =? 1 then (None, 1) else (None, -1)),
         st1)
    | inl e =>
        (Ok (None, -1),
         set_console
           (console st
              ++ ["Error running native dialog command '"
                  +:+ PyStr.join " " command +:+ "': " +:+ exn_str e])
           st1)
    end
  else (Ok (None, -1), st).
Proof.
  unfold get_native_dialog_selection, helper_available.
  destruct (String.eqb (os_name env) "posix"); simpl; [| reflexivity].
  assert (Hrun : forall command,
             command <> [] ->
             match command with
             | [] => ret (None, -1)
             | _ :: _ =>
                 try_except (dialog_run env command)
                   [(Exception, fun e =>
                       print ("Error running native dialog command '"
                              +:+ PyStr.join " " command +:+ "': "
                              +:+ exn_str e) ;;
                       ret (None, -1))]
             end st =
             match fst (run_process env command (fs st)) with
             | inr process =>
                 (Ok (let out := PyStr.strip (stdout process) in
                      if (returncode process =? 0) && PyStr.truthy out
                      then (Some out, 0)
                      else if returncode process =? 1 then (None, 1)
                           else (None, -1)),
                  set_fs (snd (run_process env command (fs st)))
                    (set_calls (calls st ++ [CallRun command]) st))
             | inl e =>
                 (Ok (None, -1),
                  set_console
                    (console st
                       ++ ["Error running native dialog command '"
                           +:+ PyStr.join " " command +:+ "': "
                           +:+ exn_str e])
                    (set_fs (snd (run_process env command (fs st)))
                       (set_calls (calls st ++ [CallRun command]) st)))
             end).
  { intros [| arg args] Hne; [congruence |].
    unfold try_except, dialog_run, bind, subprocess_run.
    cbn -[isinstance PyStr.join].
    destruct (run_process env (arg :: args) (fs st)) as [[e | process] t];
      cbn -[isinstance PyStr.join].
    - reflexivity.
    - destruct ((returncode process =? 0)
                && PyStr.truthy (PyStr.strip (stdout process)));
        [reflexivity |].
      destruct (returncode process =? 1); reflexivity. }
  unfold dialog_command.
  destruct (PyStr.truthy_opt (which env "zenity")); simpl orb; cbv iota.
  - cbn [negb fst snd]. apply Hrun. discriminate.
  - destruct (PyStr.truthy_opt (which env "kdialog")); cbn [negb fst snd].
    + apply Hrun. discriminate.
    + reflexivity.
Qed.

(** *** Stripping *)

Lemma lstrip_starts s : starts_with_space (PyStr.lstrip s) = false.
Proof.
  induction s as [| c rest IH]; simpl; [reflexivity |].
  destruct (PyStr.isspace c) eqn:Hc; [exact IH | simpl; exact Hc].
Qed.

Lemma rstrip_starts s :
  starts_with_space s = false -> starts_with_space (PyStr.rstrip s) = false.
Proof.
  destruct s as [| c rest]; cbn [starts_with_space PyStr.rstrip];
    [reflexivity |].
  intros Hc. destruct (PyStr.rstrip rest); [rewrite Hc |];
    cbn [starts_with_space]; exact Hc.
Qed.

Lemma rstrip_ends s : ends_with_space (PyStr.rstrip s) = false.
Proof.
  induction s as [| c rest IH]; simpl; [reflexivity |].
  destruct (PyStr.rstrip rest) as [| d kept] eqn:Hrest.
  - destruct (PyStr.isspace c) eqn:Hc; simpl; [reflexivity | exact Hc].
  - simpl in *. exact IH.
Qed.

Lemma lstrip_fixed s : starts_with_space s = false -> PyStr.lstrip s = s.
Proof. destruct s as [| c rest]; simpl; [| intros ->]; reflexivity. Qed.

Lemma rstrip_fixed s : ends_with_space s = false -> PyStr.rstrip s = s.
Proof.
  induction s as [| c rest IH]; simpl; [reflexivity |].
  destruct rest as [| d rest'].
  - simpl. intros ->. reflexivity.
  - intros Hends. rewrite (IH Hends). reflexivity.
Qed.

(** What [strip] returns has white space at neither end, and stripping it
    again changes nothing. *)
Lemma strip_clean s :
  starts_with_space (PyStr.strip s) = false /\
  ends_with_space (PyStr.strip s) = false /\
  PyStr.strip (PyStr.strip s) = PyStr.strip s.
Proof.
  assert (Hs : starts_with_space (PyStr.strip s) = false)
    by (apply rstrip_starts, lstrip_starts).
  assert (He : ends_with_space (PyStr.strip s) = false)
    by apply rstrip_ends.
  repeat split; try assumption.
  unfold PyStr.strip at 1. rewrite (lstrip_fixed _ Hs).
  apply rstrip_fixed, He.
Qed.

(** X5.  A path the selector returns is never empty, has white space at
    neither end, and is unchanged by a further [strip]: the caller gets the
    helper's output without the line feed the helper ends it with. *)
Theorem selected_path_is_stripped env prompt file_type initial_dir st p status :
  fst (get_native_dialog_selection env prompt file_type initial_dir st)
    = Ok (Some p, status) ->
  status = 0 /\ p <> "" /\
  starts_with_space p = false /\ ends_with_space p = false /\
  PyStr.strip p = p.
Proof.
  rewrite selector_spec.
  destruct (helper_available env); [| discriminate].
  cbv zeta.
  destruct (fst (run_process env _ (fs st))) as [e | process];
    [discriminate |].
  simpl.
  destruct (returncode process =? 0); simpl.
  - destruct (PyStr.truthy (PyStr.strip (stdout process))) eqn:Hout.
    + intros [= <- <-].
      destruct (strip_clean (stdout process)) as (Hs & He & Hfix).
      split; [reflexivity |]. split; [by apply truthy_true |]. auto.
    + destruct (returncode process =? 1); discriminate.
  - destruct (returncode process =? 1); discriminate.
Qed.

Lemma selected_path_is_stripped_witness :
  PyStr.strip "/srv/game/GameAssembly.dll" = "/srv/game/GameAssembly.dll".
Proof.
  apply (selected_path_is_stripped Sample.linux "Select Executable File"
           "file" None Sample.filled "/srv/game/GameAssembly.dll" 0).
  reflexivity.
Defined.

(** *** What the selector touches *)

(** X4.  The selector leaves every widget, the callback queue and the
    threads alone.  It runs one process when a helper is available, none
    otherwise; the process is zenity whenever zenity is on the search path,
    kdialog only when zenity is not. *)
Theorem selector_frame env prompt file_type initial_dir st :
  let st' :=
    exec (get_native_dialog_selection env prompt file_type initial_dir) st in
  same_widgets st' st /\
  after_queue st' = after_queue st /\
  threads st' = threads st /\
  if helper_available env then
    exists args,
      calls st' =
        calls st
          ++ [CallRun ((if PyStr.truthy_opt (which env "zenity")
                        then "zenity" else "kdialog") :: args)]
  else calls st' = calls st /\ fs st' = fs st.
Proof.
  unfold exec, same_widgets. rewrite selector_spec.
  destruct (helper_available env) eqn:Havail.
  - cbv zeta.
    assert (Hhead : exists args,
               snd (dialog_command env prompt file_type initial_dir) =
               (if PyStr.truthy_opt (which env "zenity")
                then "zenity" else "kdialog") :: args).
    { unfold helper_available in Havail. unfold dialog_command.
      destruct (PyStr.truthy_opt (which env "zenity")); simpl.
      - eexists; reflexivity.
      - destruct (PyStr.truthy_opt (which env "kdialog")); simpl.
        + eexists; reflexivity.
        + rewrite andb_false_r in Havail. discriminate. }
    destruct Hhead as (args & Hhead). rewrite Hhead.
    destruct (fst (run_process env _ (fs st))); simpl;
      repeat split; eexists; reflexivity.
  - simpl. repeat split.
Qed.

(** X6.  When running the helper raises, the selector still returns, with
    [(None, -1)], and prints exactly one line, which names the command and
    the exception; when the helper completes, whatever its exit status,
    and when no helper is available, nothing is printed. *)
Theorem selector_diagnostic env prompt file_type initial_dir st :
  let command := snd (dialog_command env prompt file_type initial_dir) in
  let st' :=
    exec (get_native_dialog_selection env prompt file_type initial_dir) st in
  (helper_available env = true ->
   forall e, fst (run_process env command (fs st)) = inl e ->
     fst (get_native_dialog_selection env prompt file_type initial_dir st)
       = Ok (None, -1) /\
     console st' =
       console st
         ++ ["Error running native dialog command '"
             +:+ PyStr.join " " command +:+ "': " +:+ exn_str e]) /\
  ((helper_available env = false \/
    exists process, fst (run_process env command (fs st)) = inr process) ->
   console st' = console st).
Proof.
  cbv zeta. unfold exec. rewrite selector_spec. split.
  - intros -> e He. cbv zeta. rewrite He. simpl. split; reflexivity.
  - intros [-> | (process & Hp)]; [reflexivity |].
    destruct (helper_available env); [| reflexivity].
    cbv zeta. rewrite Hp. reflexivity.
Qed.

(** Helpers that cannot be executed: one line is printed. *)
Lemma selector_diagnostic_witness :
  console
    (exec (get_native_dialog_selection MoreSamples.broken_helpers
             "Select Executable File" "file" None) Sample.filled)
  = ["Error running native dialog command 'zenity --file-selection --title Select Executable File': [Errno 8] Exec format error: 'zenity'"].
Proof.
  destruct (selector_diagnostic MoreSamples.broken_helpers
              "Select Executable File" "file" None Sample.filled)
    as [Hraised _].
  destruct (Hraised eq_refl _ eq_refl) as [_ Hconsole].
  exact Hconsole.
Defined.

(** *** The command line of the helper *)

Lemma endswith_slash_appended a : PyStr.endswith "/" (a +:+ "/") = true.
Proof.
  induction a as [| c rest IH]; [reflexivity |].
  change (String c rest +:+ "/") with (String c (rest +:+ "/")).
  cbn [PyStr.endswith]. destruct (rest +:+ "/") eqn:Hrest; [| exact IH].
  destruct rest; discriminate.
Qed.

(** X7.  With zenity and a non-empty starting directory, the command ends
    with [--filename] and a seed path that always ends with a separator:
    the directory itself when it already ends with one, the directory
    followed by one otherwise.  With kdialog the directory is passed bare,
    as the last argument. *)
Theorem helper_seed_path env prompt file_type dir :
  dir <> "" ->
  let command := snd (dialog_command env prompt file_type (Some dir)) in
  (PyStr.truthy_opt (which env "zenity") = true ->
   exists seed,
     last command = Some seed /\
     command !! (length command - 2)%nat = Some "--filename" /\
     PyStr.endswith "/" seed = true /\
     seed = (if PyStr.endswith "/" dir then dir else dir +:+ "/")) /\
  (PyStr.truthy_opt (which env "zenity") = false ->
   PyStr.truthy_opt (which env "kdialog") = true ->
   last command = Some dir).
Proof.
  intros Hdir command. subst command.
  assert (Htruthy : PyStr.truthy dir = true) by (by apply truthy_true).
  unfold dialog_command. split.
  - intros ->. cbn [snd PyStr.truthy_opt default id]. rewrite Htruthy.
    unfold os_path_join_empty. rewrite Htruthy. cbn [negb orb].
    exists (if PyStr.endswith "/" dir then dir else dir +:+ "/").
    split; [| split; [| split; [| reflexivity]]].
    + destruct (String.eqb file_type "directory"); reflexivity.
    + destruct (String.eqb file_type "directory"); reflexivity.
    + destruct (PyStr.endswith "/" dir) eqn:Hends;
        [exact Hends | apply endswith_slash_appended].
  - intros -> ->. cbn [snd PyStr.truthy_opt default id]. rewrite Htruthy.
    destruct (String.eqb file_type "directory"); reflexivity.
Qed.

Lemma helper_seed_path_witness :
  last (snd (dialog_command Sample.linux "Select Output Directory"
               "directory" (Some "/srv/out")))
  = Some "/srv/out/".
Proof.
  assert (Hdir : "/srv/out" <> "") by discriminate.
  destruct (helper_seed_path Sample.linux "Select Output Directory"
              "directory" "/srv/out" Hdir) as [Hzenity _].
  destruct (Hzenity eq_refl) as (seed & Hlast & _ & _ & ->).
  exact Hlast.
Defined.

(** X18.  The helper a browse button runs is asked for a directory exactly
    when the button is the one of the output directory: its command line
    holds zenity's [--directory] or kdialog's [--getexistingdirectory] then,
    and neither of them for the two file buttons. *)
Theorem browse_asks_for_the_right_kind env b :
  helper_available env = true ->
  (In "--directory" (browse_command env b) \/
   In "--getexistingdirectory" (browse_command env b))
  <-> b = output_dir_button.
Proof.
  unfold helper_available, browse_command, dialog_command.
  destruct (String.eqb (os_name env) "posix"); [| discriminate].
  destruct (PyStr.truthy_opt (which env "zenity")); simpl orb; cbn [andb].
  - intros _. destruct b; cbn; split;
      solve [ reflexivity | discriminate | auto 10
            | intros [H | H]; repeat (destruct H as [H | H]; try discriminate);
              contradiction ].
  - intros ->. destruct b; cbn; split;
      solve [ reflexivity | discriminate | auto 10
            | intros [H | H]; repeat (destruct H as [H | H]; try discriminate);
              contradiction ].
Qed.

Lemma browse_asks_for_the_right_kind_witness :
  In "--getexistingdirectory"
     (browse_command MoreSamples.cancelling output_dir_button).
Proof.
  destruct (browse_asks_for_the_right_kind MoreSamples.cancelling
              output_dir_button eq_refl) as [_ Hdir].
  destruct (Hdir eq_refl) as [Hzenity | Hkdialog]; [| exact Hkdialog].
  cbn in Hzenity.
  repeat (destruct Hzenity as [Hzenity | Hzenity]; try discriminate).
  contradiction.
Defined.

(** ** The browse buttons *)

Lemma append_empty_r (s : string) : s +:+ "" = s.
Proof.
  induction s as [| c rest IH]; [reflexivity |].
  change (String c (rest +:+ "") = String c rest). f_equal. exact IH.
Qed.

(** A browse button in terms of what the selector gave. *)
Lemma browse_spec env b st :
  browse env b st =
  match get_native_dialog_selection env (browse_prompt b) (browse_mode b)
          None st with
  | (Ok (path, status), st1) =>
      if status =? 0 then
        (Ok tt,
         set_output_log
           (mkTextbox disabled
              (tb_chunks (output_log st1)
                 ++ [((selected_label b +:+ str_of_optional path)
                      +:+ PyStr.newline, Some info)]))
           (set_own_field b (str_of_optional path) st1))
      else if status =? -1 then
        _log_message (no_dialog_message b) (Some red) st1
      else (Ok tt, st1)
  | (Raise e, st1) => (Raise e, st1)
  end.
Proof.
  destruct b; unfold browse, browse_executable, browse_metadata,
    browse_output_dir, bind; cbn [browse_prompt browse_mode];
    match goal with
    | |- context [get_native_dialog_selection ?e ?p ?m ?i ?s] =>
        destruct (get_native_dialog_selection e p m i s)
          as [[[path status] | e'] st1]
    end; try reflexivity;
    (destruct (status =? 0); [| destruct (status =? -1); reflexivity]);
    unfold entry_delete_all, entry_insert_front; simpl;
    rewrite append_empty_r; f_equal; same_state.
Qed.

(** X1.  When the user cancels the dialog (the helper leaves with status
    1), a browse button changes no field, adds nothing to the log, prints
    nothing and leaves button, queue and threads as they were. *)
Theorem browse_cancelled_changes_nothing env b st process :
  helper_available env = true ->
  fst (run_process env (browse_command env b) (fs st)) = inr process ->
  returncode process = 1 ->
  let st' := exec (browse env b) st in
  fst (browse env b st) = Ok tt /\
  same_widgets st' st /\
  after_queue st' = after_queue st /\
  threads st' = threads st /\
  console st' = console st.
Proof.
  intros Havail Hrun Hrc. unfold exec, same_widgets.
  rewrite browse_spec, selector_spec, Havail. cbv zeta.
  fold (browse_command env b). rewrite Hrun, Hrc. simpl.
  repeat split.
Qed.

Lemma browse_cancelled_changes_nothing_witness :
  output_log (exec (browse MoreSamples.cancelling output_dir_button)
                MoreSamples.output_exists)
    = output_log MoreSamples.output_exists /\
  output_entry (exec (browse MoreSamples.cancelling output_dir_button)
                  MoreSamples.output_exists) = "/srv/game".
Proof.
  destruct (browse_cancelled_changes_nothing MoreSamples.cancelling
              output_dir_button MoreSamples.output_exists
              (mkCompletedProcess 1 "" "") eq_refl eq_refl eq_refl)
    as (_ & (_ & _ & Hout & _ & Hlog) & _).
  split; [exact Hlog | exact Hout].
Defined.

(** X2.  When the helper gives a path (status 0, output not blank), the
    browse button replaces the whole content of its own field by the
    stripped output, leaves the other two fields alone, and adds one
    [info] entry that names the path. *)
Theorem browse_fills_own_field env b st process :
  helper_available env = true ->
  fst (run_process env (browse_command env b) (fs st)) = inr process ->
  returncode process = 0 ->
  PyStr.strip (stdout process) <> "" ->
  let st' := exec (browse env b) st in
  fst (browse env b st) = Ok tt /\
  own_field b st' = PyStr.strip (stdout process) /\
  other_fields b st' = other_fields b st /\
  tb_chunks (output_log st') =
    tb_chunks (output_log st)
      ++ [((selected_label b +:+ PyStr.strip (stdout process))
           +:+ PyStr.newline, Some info)] /\
  run_button st' = run_button st /\
  after_queue st' = after_queue st /\
  threads st' = threads st.
Proof.
  intros Havail Hrun Hrc Hout. unfold exec.
  rewrite browse_spec, selector_spec, Havail. cbv zeta.
  fold (browse_command env b). rewrite Hrun, Hrc.
  apply truthy_true in Hout. rewrite Hout. simpl.
  destruct b; repeat split.
Qed.

Lemma browse_fills_own_field_witness :
  exec_entry (exec (browse Sample.linux executable_button)
                MoreSamples.mistyped_executable)
    = "/srv/game/GameAssembly.dll" /\
  tb_chunks (output_log (exec (browse Sample.linux executable_button)
                           MoreSamples.mistyped_executable))
    = [("Selected executable: /srv/game/GameAssembly.dll" +:+ PyStr.newline,
        Some info)].
Proof.
  assert (Hout : PyStr.strip ("/srv/game/GameAssembly.dll" +:+ PyStr.newline)
                 <> "") by discriminate.
  destruct (browse_fills_own_field Sample.linux executable_button
              MoreSamples.mistyped_executable
              (mkCompletedProcess
                 0 ("/srv/game/GameAssembly.dll" +:+ PyStr.newline) "")
              eq_refl eq_refl eq_refl Hout)
    as (_ & Hfield & _ & Hlog & _).
  split; [exact Hfield | exact Hlog].
Defined.

(** X3.  When no helper is available, or the helper fails (it raises,
    leaves with a status other than 0 and 1, or leaves with status 0 and
    blank output), a browse button changes no field and adds exactly one
    red entry, which asks for zenity or kdialog to be installed. *)
Theorem browse_reports_missing_dialog env b st :
  helper_available env = false \/ helper_failed env b st ->
  let st' := exec (browse env b) st in
  fst (browse env b st) = Ok tt /\
  own_field b st' = own_field b st /\
  other_fields b st' = other_fields b st /\
  tb_chunks (output_log st') =
    tb_chunks (output_log st)
      ++ [(no_dialog_message b +:+ PyStr.newline, Some red)] /\
  run_button st' = run_button st /\
  after_queue st' = after_queue st /\
  threads st' = threads st.
Proof.
  intros Hcase. unfold exec. rewrite browse_spec, selector_spec.
  destruct (helper_available env).
  - destruct Hcase as [Hcase | Hfailed]; [discriminate |].
    unfold helper_failed in Hfailed. cbv zeta.
    fold (browse_command env b).
    destruct (fst (run_process env (browse_command env b) (fs st)))
      as [e | process].
    + simpl. destruct b; repeat split.
    + destruct Hfailed as (H1 & H0).
      apply Z.eqb_neq in H1.
      assert (Hsel : (returncode process =? 0)
                     && PyStr.truthy (PyStr.strip (stdout process)) = false).
      { destruct H0 as [H0 | H0].
        - apply Z.eqb_neq in H0. rewrite H0. reflexivity.
        - rewrite H0. apply andb_false_r. }
      cbv zeta. rewrite Hsel, H1. simpl. destruct b; repeat split.
  - simpl. destruct b; repeat split.
Qed.

Lemma browse_reports_missing_dialog_witness :
  tb_chunks (output_log (exec (browse MoreSamples.failing_helper
                                 metadata_button) Sample.filled))
    = [(no_file_dialog +:+ PyStr.newline, Some red)] /\
  meta_entry (exec (browse MoreSamples.failing_helper metadata_button)
                Sample.filled)
    = "/srv/game/global-metadata.dat".
Proof.
  assert (Hfailed : helper_failed MoreSamples.failing_helper metadata_button
                      Sample.filled).
  { split; [discriminate | left; discriminate]. }
  destruct (browse_reports_missing_dialog MoreSamples.failing_helper
              metadata_button Sample.filled (or_intror Hfailed))
    as (_ & Hfield & _ & Hlog & _).
  split; [exact Hlog | exact Hfield].
Defined.

(** ** More on the handler of the run button *)

(** X8.  With the three fields filled and nothing at the executable path,
    [run_dumper] adds one red entry that quotes the path exactly as typed,
    starts no thread and leaves the button alone; this check comes before
    the one on the metadata path, whose state does not matter. *)
Theorem run_dumper_reports_missing_executable st :
  exec_entry st <> "" -> meta_entry st <> "" -> output_entry st <> "" ->
  Fs.exists_ (exec_entry st) (fs st) = false ->
  let st' := exec run_dumper st in
  tb_chunks (output_log st') =
    tb_chunks (output_log st)
      ++ [(("Error: Executable file not found at '" +:+ exec_entry st
            +:+ "'") +:+ PyStr.newline, Some red)] /\
  threads st' = threads st /\
  run_button st' = run_button st.
Proof.
  intros He Hm Ho Hexec. unfold exec.
  rewrite run_dumper_no_executable, log_message_spec;
    [| apply all_filled_true; auto | exact Hexec].
  simpl. repeat split.
Qed.

Lemma run_dumper_reports_missing_executable_witness :
  tb_chunks (output_log (exec run_dumper MoreSamples.mistyped_executable))
  = [("Error: Executable file not found at '/srv/game/GameAssembly.dl'"
      +:+ PyStr.newline, Some red)].
Proof.
  refine (proj1 (run_dumper_reports_missing_executable
                   MoreSamples.mistyped_executable _ _ _ eq_refl));
    discriminate.
Defined.

(** X9.  With the three fields filled, the executable path existing and
    nothing at the metadata path, [run_dumper] adds one red entry that
    quotes the metadata path exactly as typed, starts no thread and leaves
    the button alone. *)
Theorem run_dumper_reports_missing_metadata st :
  exec_entry st <> "" -> meta_entry st <> "" -> output_entry st <> "" ->
  Fs.exists_ (exec_entry st) (fs st) = true ->
  Fs.exists_ (meta_entry st) (fs st) = false ->
  let st' := exec run_dumper st in
  tb_chunks (output_log st') =
    tb_chunks (output_log st)
      ++ [(("Error: Metadata file not found at '" +:+ meta_entry st +:+ "'")
           +:+ PyStr.newline, Some red)] /\
  threads st' = threads st /\
  run_button st' = run_button st.
Proof.
  intros He Hm Ho Hexec Hmeta. unfold exec.
  rewrite run_dumper_no_metadata, log_message_spec;
    [| apply all_filled_true; auto | exact Hexec | exact Hmeta].
  simpl. repeat split.
Qed.

Lemma run_dumper_reports_missing_metadata_witness :
  tb_chunks (output_log (exec run_dumper MoreSamples.mistyped_metadata))
  = [("Error: Metadata file not found at '/srv/game/missing.dat'"
      +:+ PyStr.newline, Some red)].
Proof.
  refine (proj1 (run_dumper_reports_missing_metadata
                   MoreSamples.mistyped_metadata _ _ _ eq_refl eq_refl));
    discriminate.
Defined.

(** The four ways through [run_dumper]. *)
Lemma run_dumper_cases st :
  (exists message, run_dumper st = _log_message message (Some red) st) \/
  run_dumper st =
    thread_start target_run_dumper_async
      (set_output_log (mkTextbox disabled []) (set_run_button disabled st)).
Proof.
  destruct (all_filled (exec_entry st) (meta_entry st) (output_entry st))
    eqn:Hall; [| left; eexists; by apply run_dumper_unfilled].
  destruct (Fs.exists_ (exec_entry st) (fs st)) eqn:Hexec;
    [| left; eexists; by apply run_dumper_no_executable].
  destruct (Fs.exists_ (meta_entry st) (fs st)) eqn:Hmeta;
    [| left; eexists; by apply run_dumper_no_metadata].
  right. by apply run_dumper_passes.
Qed.

(** X10.  Whatever is in the fields, [run_dumper] returns normally, and
    it only looks: the fields, the file tree, the list of system calls,
    the callback queue and the console are as before; the log is left
    read-only. *)
Theorem run_dumper_only_looks st :
  let st' := exec run_dumper st in
  fst (run_dumper st) = Ok tt /\
  exec_entry st' = exec_entry st /\ meta_entry st' = meta_entry st /\
  output_entry st' = output_entry st /\
  fs st' = fs st /\ calls st' = calls st /\
  after_queue st' = after_queue st /\ console st' = console st /\
  tb_state (output_log st') = disabled.
Proof.
  unfold exec.
  destruct (run_dumper_cases st) as [(message & ->) | ->].
  - rewrite log_message_spec. simpl. repeat split.
  - simpl. repeat split.
Qed.

(** ** More on the background worker *)

(** X11.  The worker never touches a widget itself: on every path, the
    three fields, the button and the log are as it found them when it
    ends, and so are the threads and the console; what it has to say is
    appended to the callback queue, whose earlier content stays in
    front. *)
Theorem worker_only_queues env st :
  let st' := exec (run_dumper_async env) st in
  same_widgets st' st /\
  threads st' = threads st /\
  console st' = console st /\
  exists added, after_queue st' = after_queue st ++ added.
Proof.
  unfold exec, same_widgets.
  destruct (all_filled (exec_entry st) (meta_entry st) (output_entry st))
    eqn:Hall.
  - assert (Hout : PyStr.truthy (output_entry st) = true).
    { apply all_filled_true in Hall. apply truthy_true. tauto. }
    rewrite worker_validated by exact Hall.
    rewrite ensure_output_dir_spec.
    destruct (Fs.isdir (output_entry st) (fs st)).
    + rewrite invoke_tool_spec. simpl. repeat split.
      eexists. rewrite <- app_assoc. reflexivity.
    + rewrite os_makedirs_spec by exact Hout.
      destruct (snd (mkdir_chain env [] (Fs.resolve (output_entry st))
                       (fs st))) as [e |].
      * destruct (isinstance e OSError); simpl; repeat split.
        -- eexists; reflexivity.
        -- exists []. by rewrite app_nil_r.
      * rewrite invoke_tool_spec. simpl. repeat split.
        eexists. rewrite <- !app_assoc. reflexivity.
  - rewrite worker_unvalidated by exact Hall. simpl. repeat split.
    eexists; reflexivity.
Qed.

(** X12.  When the worker gets to the tool and [il2cppdumper] is not to be
    found ([subprocess.run] raises [FileNotFoundError]), the worker returns
    normally; after the announcement it queues the entry that tells the
    user to check the installation and the search path, and then the
    request to enable the button. *)
Theorem worker_reports_missing_tool env st st1 e :
  all_filled (exec_entry st) (meta_entry st) (output_entry st) = true ->
  ensure_output_dir env (output_entry st) st = (Ok true, st1) ->
  fst (run_process env (dump_command st) (fs st1)) = inl e ->
  isinstance e FileNotFoundError = true ->
  fst (run_dumper_async env st) = Ok tt /\
  after_queue (exec (run_dumper_async env) st) =
    after_queue st1
      ++ [announcement st;
          cb_log_message
            "Error: 'il2cppdumper' command not found. Please ensure it's installed and in your system's PATH."
            red;
          cb_configure_kw normal].
Proof.
  intros Hall Hdir Hrun Hclass. unfold exec.
  rewrite (worker_tool_phase env st st1 Hall Hdir), Hrun. simpl.
  unfold failure_entries. rewrite Hclass. split; reflexivity.
Qed.

Lemma worker_reports_missing_tool_witness :
  after_queue (exec (run_dumper_async MoreSamples.tool_missing)
                 MoreSamples.output_exists)
  = [announcement MoreSamples.output_exists;
     cb_log_message
       "Error: 'il2cppdumper' command not found. Please ensure it's installed and in your system's PATH."
       red;
     cb_configure_kw normal].
Proof.
  refine (proj2 (worker_reports_missing_tool MoreSamples.tool_missing
                   MoreSamples.output_exists MoreSamples.output_exists
                   (mkExn FileNotFoundError
                      "[Errno 2] No such file or directory: 'il2cppdumper'")
                   eq_refl eq_refl eq_refl eq_refl)).
Defined.

(** X13.  When running the tool raises anything else, the worker returns
    normally as well; after the announcement it queues one red entry
    that carries the text of the exception, and then the request to
    enable the button. *)
Theorem worker_reports_unexpected_error env st st1 e :
  all_filled (exec_entry st) (meta_entry st) (output_entry st) = true ->
  ensure_output_dir env (output_entry st) st = (Ok true, st1) ->
  fst (run_process env (dump_command st) (fs st1)) = inl e ->
  isinstance e FileNotFoundError = false ->
  fst (run_dumper_async env st) = Ok tt /\
  after_queue (exec (run_dumper_async env) st) =
    after_queue st1
      ++ [announcement st;
          cb_log_message ("An unexpected error occurred: " +:+ exn_str e) red;
          cb_configure_kw normal].
Proof.
  intros Hall Hdir Hrun Hclass. unfold exec.
  rewrite (worker_tool_phase env st st1 Hall Hdir), Hrun. simpl.
  unfold failure_entries. rewrite Hclass. split; reflexivity.
Qed.

Lemma worker_reports_unexpected_error_witness :
  after_queue (exec (run_dumper_async MoreSamples.tool_forbidden)
                 MoreSamples.output_exists)
  = [announcement MoreSamples.output_exists;
     cb_log_message
       "An unexpected error occurred: [Errno 13] Permission denied: 'il2cppdumper'"
       red;
     cb_configure_kw normal].
Proof.
  refine (proj2 (worker_reports_unexpected_error MoreSamples.tool_forbidden
                   MoreSamples.output_exists MoreSamples.output_exists
                   (mkExn OSError
                      "[Errno 13] Permission denied: 'il2cppdumper'")
                   eq_refl eq_refl eq_refl eq_refl)).
Defined.

Lemma validated_worker_requests_button_once_witness :
  exists added,
    after_queue (exec (run_dumper_async Sample.linux) Sample.unwritable_output)
      = added /\
    configure_requests added = 1%nat.
Proof.
  destruct (validated_worker_requests_button_once Sample.linux
              Sample.unwritable_output eq_refl)
    as (added & _ & Hqueue & Hcount & _).
  - intros e [= <-]. reflexivity.
  - exists added. split; [exact Hqueue | exact Hcount].
Defined.

(** X15.  The [except] clause around [os.makedirs] catches [OSError]s
    only.  When [os.makedirs] raises anything else, the exception leaves
    the worker: nothing at all is queued, neither an entry for the log nor
    the request to enable the button, and the tool is not run. *)
Theorem worker_lets_other_errors_escape env st e :
  all_filled (exec_entry st) (meta_entry st) (output_entry st) = true ->
  Fs.isdir (output_entry st) (fs st) = false ->
  fst (os_makedirs env (output_entry st) st) = Raise e ->
  isinstance e OSError = false ->
  let st' := exec (run_dumper_async env) st in
  fst (run_dumper_async env st) = Raise e /\
  after_queue st' = after_queue st /\
  calls st' = calls st ++ [CallMakedirs (output_entry st)].
Proof.
  intros Hall Hdir Hfail Hclass.
  assert (Hout : PyStr.truthy (output_entry st) = true).
  { apply all_filled_true in Hall. apply truthy_true. tauto. }
  unfold exec. rewrite worker_validated by exact Hall.
  rewrite ensure_output_dir_spec, Hdir.
  rewrite os_makedirs_spec in * by exact Hout. simpl in Hfail.
  destruct (snd (mkdir_chain env [] (Fs.resolve (output_entry st)) (fs st)))
    as [e' |]; [| discriminate].
  injection Hfail as ->. rewrite Hclass. simpl. repeat split.
Qed.

Lemma worker_lets_other_errors_escape_witness :
  fst (run_dumper_async MoreSamples.mkdir_value_error Sample.filled)
    = Raise (mkExn Exception "embedded null byte") /\
  after_queue (exec (run_dumper_async MoreSamples.mkdir_value_error)
                 Sample.filled) = [].
Proof.
  destruct (worker_lets_other_errors_escape MoreSamples.mkdir_value_error
              Sample.filled (mkExn Exception "embedded null byte")
              eq_refl eq_refl eq_refl eq_refl)
    as (Hraise & Hqueue & _).
  split; [exact Hraise | exact Hqueue].
Defined.

(** X17.  When the output directory is already there, the worker creates
    nothing and warns of nothing: its only system call is the tool's, run
    on the tree as it was, and the first thing it queues is the
    announcement of the command line. *)
Theorem worker_skips_creation_when_present env st :
  all_filled (exec_entry st) (meta_entry st) (output_entry st) = true ->
  Fs.isdir (output_entry st) (fs st) = true ->
  let st' := exec (run_dumper_async env) st in
  calls st' = calls st ++ [CallRun (dump_command st)] /\
  fs st' = snd (run_process env (dump_command st) (fs st)) /\
  exists rest,
    after_queue st' = after_queue st ++ announcement st :: rest /\
    ~ In (creation_warning st) rest.
Proof.
  intros Hall Hdir. unfold exec.
  assert (Hensure : ensure_output_dir env (output_entry st) st = (Ok true, st))
    by (rewrite ensure_output_dir_spec, Hdir; reflexivity).
  rewrite (worker_tool_phase env st st Hall Hensure). simpl.
  split; [reflexivity |]. split; [reflexivity |].
  eexists. split; [reflexivity |].
  intros Hin. apply in_app_or in Hin. destruct Hin as [Hin | Hin].
  - destruct (fst (run_process env (dump_command st) (fs st)))
      as [e | process]; simpl in Hin.
    + unfold failure_entries in Hin.
      destruct (isinstance e FileNotFoundError); simpl in Hin;
        destruct Hin as [Hin | []]; discriminate.
    + unfold expected_entries in Hin.
      destruct (PyStr.truthy (stdout process)),
               (PyStr.truthy (stderr process)),
               (returncode process =? 0);
        simpl in Hin;
        repeat (destruct Hin as [Hin | Hin]; try discriminate);
        contradiction.
  - simpl in Hin. destruct Hin as [Hin | []]. discriminate.
Qed.

Lemma worker_skips_creation_when_present_witness :
  calls (exec (run_dumper_async Sample.linux) MoreSamples.output_exists)
  = [CallRun ["il2cppdumper"; "/srv/game/GameAssembly.dll";
              "/srv/game/global-metadata.dat"; "/srv/game"]].
Proof.
  refine (proj1 (worker_skips_creation_when_present Sample.linux
                   MoreSamples.output_exists eq_refl eq_refl)).
Defined.

(** ** More on the event loop *)

(** Serving the callback queue never raises and leaves the queue
    empty; the log gains the queued messages in the order they were
    queued, each ended by a line feed and under its tag, and nothing
    else; fields, file tree, system calls, threads and console stay. *)
Theorem event_loop_serves_in_order env st :
  let st' := exec (process_after_queue env) st in
  fst (process_after_queue env st) = Ok tt /\
  after_queue st' = [] /\
  tb_chunks (output_log st') =
    tb_chunks (output_log st) ++ log_chunks (after_queue st) /\
  exec_entry st' = exec_entry st /\ meta_entry st' = meta_entry st /\
  output_entry st' = output_entry st /\
  fs st' = fs st /\ calls st' = calls st /\
  threads st' = threads st /\ console st' = console st.
Proof.
  cbv zeta. rewrite process_after_queue_log.
  unfold exec, process_after_queue. rewrite run_callbacks_spec. simpl.
  destruct (log_chunks (after_queue st)); simpl; repeat split.
Qed.

(** ** A whole run *)

(** X16.  A run from the click to the last callback.  From an idle
    application whose three fields are filled, whose executable and
    metadata paths exist and whose output directory is there or can be
    created, [run_dumper], then the worker, then the event loop leave the
    button enabled again and the queue empty, whatever the tool did; the
    log holds the messages of this run and nothing of what it held
    before. *)
Theorem whole_run_enables_button env st :
  all_filled (exec_entry st) (meta_entry st) (output_entry st) = true ->
  Fs.exists_ (exec_entry st) (fs st) = true ->
  Fs.exists_ (meta_entry st) (fs st) = true ->
  Fs.isdir (output_entry st) (fs st) = true \/
  snd (mkdir_chain env [] (Fs.resolve (output_entry st)) (fs st)) = None ->
  after_queue st = [] ->
  let started := exec run_dumper st in
  let worked := exec (run_dumper_async env) started in
  let served := exec (process_after_queue env) worked in
  run_button started = disabled /\
  fst (run_dumper_async env started) = Ok tt /\
  run_button served = normal /\
  after_queue served = [] /\
  tb_chunks (output_log served) = log_chunks (after_queue worked) /\
  In (announcement st) (after_queue worked).
Proof.
  intros Hall Hexec Hmeta Hdir Hidle.
  assert (Hout : PyStr.truthy (output_entry st) = true).
  { apply all_filled_true in Hall. apply truthy_true. tauto. }
  intros started0 worked served.
  assert (Hstarted : started0 =
                     set_threads (threads st ++ [target_run_dumper_async])
                       (set_output_log (mkTextbox disabled [])
                          (set_run_button disabled st))).
  { subst started0. unfold exec.
    rewrite run_dumper_passes by assumption. reflexivity. }
  clearbody started0. subst started0.
  set (started := set_threads _ _) in *.
  assert (Hensure : exists st1,
             ensure_output_dir env (output_entry started) started
               = (Ok true, st1) /\
             output_log st1 = mkTextbox disabled []).
  { rewrite ensure_output_dir_spec.
    change (output_entry started) with (output_entry st).
    change (fs started) with (fs st).
    destruct (Fs.isdir (output_entry st) (fs st)) eqn:Hisdir.
    - eexists. split; reflexivity.
    - destruct Hdir as [Hdir | Hdir]; [discriminate |].
      rewrite os_makedirs_spec by exact Hout.
      change (fs started) with (fs st). rewrite Hdir.
      eexists. split; reflexivity. }
  destruct Hensure as (st1 & Hensure & Hlog).
  assert (Hall' : all_filled (exec_entry started) (meta_entry started)
                    (output_entry started) = true) by exact Hall.
  pose proof (worker_tool_phase env started st1 Hall' Hensure) as Hrun.
  change (dump_command started) with (dump_command st) in Hrun.
  change (announcement started) with (announcement st) in Hrun.
  assert (Hworked : worked = snd (run_dumper_async env started))
    by reflexivity.
  rewrite Hrun in Hworked. cbn [snd] in Hworked.
  clearbody worked. subst worked.
  split; [reflexivity |].
  split; [rewrite Hrun; reflexivity |].
  split.
  { subst served. rewrite process_after_queue_button.
    cbn [after_queue set_after_queue].
    rewrite !app_assoc, fold_left_app. reflexivity. }
  split.
  { subst served. unfold exec, process_after_queue.
    rewrite run_callbacks_spec. simpl.
    destruct (log_chunks _); reflexivity. }
  split.
  { subst served. rewrite process_after_queue_log. simpl.
    rewrite Hlog. reflexivity. }
  simpl. apply in_or_app. right. left. reflexivity.
Qed.

Lemma whole_run_enables_button_witness :
  run_button
    (exec (process_after_queue Sample.linux)
       (exec (run_dumper_async Sample.linux) (exec run_dumper Sample.filled)))
    = normal.
Proof.
  refine (proj1 (proj2 (proj2 (whole_run_enables_button Sample.linux
                                 Sample.filled eq_refl eq_refl eq_refl
                                 (or_intror eq_refl) eq_refl)))).
Defined.
